(** * notion_df.configs: property configurations, schema inference and
      value sanitisation

    A shallow embedding of [src/notion_df/configs.py] and a verification of
    its specification.  The module is written against two libraries whose
    behaviour decides several of the properties below, so the part of each
    that the module exercises is embedded as well:

    - pydantic (version 1): [BaseModel] construction validates the fields in
      declaration order (inherited fields first), collects the field errors
      into one [ValidationError], and runs a [@validator] only on a field
      whose value was supplied, unless the validator is declared with
      [always=True];
    - pandas: the dtype predicates of [pandas.api.types], label lookup
      [df[col]], [DataFrame.copy] and [Series.apply].

    Python objects that are shared and mutated (the data frame handed to
    [transform]) live in an explicit store. *)

From stdpp Require Import base option list strings pretty gmap.
From Stdlib Require Import ZArith Ascii String.

Local Open Scope string_scope.
Local Open Scope list_scope.
Set Warnings "-register-all".

(** ** Python values

    The values that reach this module from a raw configuration payload
    (decoded JSON), together with the builtin type object [str], which
    [_infer_series_config] places in a list (line 266). *)

Inductive pyval :=
  | PNone
  | PBool (b : bool)
  | PInt (n : Z)
  | PStr (s : string)
  | PList (l : list pyval)
  | PDict (d : list (string * pyval))
  | PStrType.                        (* the type object [str] itself *)

(** ** Exceptions and results *)

(** The reason pydantic records for one field of a model. *)
Inductive field_error :=
  | MissingError                     (* field required *)
  | NoneIsNotAllowedError
  | StrError                         (* str type expected *)
  | DictError                        (* value is not a valid dict *)
  | ListError                        (* value is not a valid list *)
  | NestedError                      (* a nested model rejected its input *)
  | ValueError_ (msg : string)       (* raised by a validator *)
  | AssertionError_ (msg : string).  (* a failed assert in a validator *)

Inductive exn :=
  | KeyError (key : pyval)
  | TypeError (msg : string)
  | AttributeError (msg : string)
  | IndexError (msg : string)
  | ValidationError (errors : list (string * field_error)).

Inductive result (A : Type) :=
  | Ok (a : A)
  | Raise (e : exn).
Arguments Ok {A} a.
Arguments Raise {A} e.

#[export] Instance result_ret : MRet result := fun A a => Ok a.
#[export] Instance result_bind : MBind result := fun A B k m =>
  match m with
  | Ok a => k a
  | Raise e => Raise e
  end.

Definition raises {A} (m : result A) : Prop := ∃ e, m = Raise e.

(** ** Python dictionaries

    A [dict] keeps its keys in insertion order; assigning to a key that is
    present replaces the value in place, assigning to a new key appends. *)

Definition dict (V : Type) := list (string * V).

Fixpoint dict_get {V} (d : dict V) (k : string) : option V :=
  match d with
  | [] => None
  | (k', v) :: d' => if String.eqb k' k then Some v else dict_get d' k
  end.

Fixpoint dict_set {V} (d : dict V) (k : string) (v : V) : dict V :=
  match d with
  | [] => [(k, v)]
  | (k', v') :: d' =>
      if String.eqb k' k then (k', v) :: d' else (k', v') :: dict_set d' k v
  end.

Definition keys {V} (d : dict V) : list string := map fst d.

(** What [{k: v for ...}] and [dict(pairs)] build from a sequence of items. *)
Definition dict_of_items {V} (items : list (string * V)) : dict V :=
  fold_left (fun d kv => dict_set d (fst kv) (snd kv)) items [].

(** ** Python strings: [str.replace], [re.sub], [str.lower] *)

(** [s.replace(old, new)] for a non-empty [old]: left to right, without
    overlaps.  [skip] counts the characters of a matched occurrence that are
    still to be dropped. *)
Fixpoint replace_aux (old new : string) (skip : nat) (s : string) : string :=
  match s with
  | EmptyString => EmptyString
  | String c s' =>
      match skip with
      | S k => replace_aux old new k s'
      | O =>
          if String.prefix old s
          then new ++ replace_aux old new (String.length old - 1) s'
          else String c (replace_aux old new 0 s')
      end
  end.

Definition replace (old new s : string) : string := replace_aux old new 0 s.

Definition is_upper (c : ascii) : bool :=
  let n := nat_of_ascii c in (65 <=? n)%nat && (n <=? 90)%nat.

Definition lower_char (c : ascii) : ascii :=
  if is_upper c then ascii_of_nat (nat_of_ascii c + 32) else c.

Fixpoint lower (s : string) : string :=
  match s with
  | EmptyString => EmptyString
  | String c s' => String (lower_char c) (lower s')
  end.

(** [re.sub(r"(?<!^)(?=[A-Z])", "_", s)]: an underscore goes in front of
    every capital that is not the first character. *)
Fixpoint underscore_capitals (s : string) : string :=
  match s with
  | EmptyString => EmptyString
  | String c s' =>
      if is_upper c then String "_" (String c (underscore_capitals s'))
      else String c (underscore_capitals s')
  end.

Definition sub_capitals (s : string) : string :=
  match s with
  | EmptyString => EmptyString
  | String c s' => String c (underscore_capitals s')
  end.

Definition _convert_classname_to_typename (s : string) : string :=
  let s := replace "URL" "Url" (replace "Config" "" s) in
  lower (sub_capitals s).

(** ** Python truthiness, hashing and equality on payload values *)

Definition py_truthy (v : pyval) : bool :=
  match v with
  | PNone => false
  | PBool b => b
  | PInt n => negb (n =? 0)%Z
  | PStr s => negb (String.eqb s "")
  | PList l => match l with [] => false | _ => true end
  | PDict d => match d with [] => false | _ => true end
  | PStrType => true
  end.

(** Lists and dictionaries are unhashable. *)
Definition hashable (v : pyval) : bool :=
  match v with
  | PList _ | PDict _ => false
  | _ => true
  end.

Definition int_of_bool (b : bool) : Z := if b then 1%Z else 0%Z.

(** [==] between hashable values: [True == 1] and [False == 0]. *)
Definition key_eqb (a b : pyval) : bool :=
  match a, b with
  | PNone, PNone => true
  | PBool x, PBool y => Bool.eqb x y
  | PInt x, PInt y => (x =? y)%Z
  | PBool x, PInt y | PInt y, PBool x => (int_of_bool x =? y)%Z
  | PStr x, PStr y => String.eqb x y
  | PStrType, PStrType => true
  | _, _ => false
  end.

(** A dictionary with arbitrary hashable keys, as [dict(v)] may build. *)
Definition pydict := list (pyval * pyval).

Fixpoint pydict_set (d : pydict) (k v : pyval) : pydict :=
  match d with
  | [] => [(k, v)]
  | (k', v') :: d' =>
      if key_eqb k' k then (k', v) :: d' else (k', v') :: pydict_set d' k v
  end.

(** ** pydantic: the validators of the field types *)

Inductive checked (A : Type) :=
  | Valid (a : A)
  | Invalid (e : field_error).
Arguments Valid {A} a.
Arguments Invalid {A} e.

#[export] Instance checked_ret : MRet checked := fun A a => Valid a.
#[export] Instance checked_bind : MBind checked := fun A B k m =>
  match m with
  | Valid a => k a
  | Invalid e => Invalid e
  end.

Definition str_of_bool (b : bool) : string := if b then "True" else "False".

(** [pydantic.validators.str_validator]: a [str] passes, an [int] (and so a
    [bool]) is rendered with [str()], anything else is refused. *)
Definition str_validator (v : pyval) : checked string :=
  match v with
  | PStr s => Valid s
  | PInt n => Valid (pretty n)
  | PBool b => Valid (str_of_bool b)
  | _ => Invalid StrError
  end.

(** One element of the sequence given to [dict()]: an iterable of length
    two. *)
Definition as_item (v : pyval) : option (pyval * pyval) :=
  match v with
  | PList [k; x] => Some (k, x)
  | PStr (String a (String b EmptyString)) =>
      Some (PStr (String a EmptyString), PStr (String b EmptyString))
  | PDict [(k1, _); (k2, _)] => Some (PStr k1, PStr k2)
  | _ => None
  end.

Fixpoint dict_of_sequence (l : list pyval) (acc : pydict) : option pydict :=
  match l with
  | [] => Some acc
  | v :: l' =>
      match as_item v with
      | Some (k, x) =>
          if hashable k then dict_of_sequence l' (pydict_set acc k x) else None
      | None => None
      end
  end.

(** [pydantic.validators.dict_validator]: a [dict] passes as it is,
    otherwise [dict(v)] is tried. *)
Definition dict_validator (v : pyval) : checked pydict :=
  match v with
  | PDict d => Valid (map (fun kv => (PStr (fst kv), snd kv)) d)
  | PList l =>
      match dict_of_sequence l [] with
      | Some d => Valid d
      | None => Invalid DictError
      end
  | PStr EmptyString => Valid []
  | _ => Invalid DictError
  end.

(** ** notion_df.base

    The module [notion_df.base] is not part of the sources at hand; its
    models are taken from the specification. *)

(** Modelled from the spec: [NumberFormat], missing from the sources. §3: a
    number property carries a [format]; the known formats are not
    enumerated, so any string is a format. *)
Record NumberFormat := { format : string }.

(** Modelled from the spec: [SelectOption] and [SelectOptions], missing from
    the sources. §3: an optional ordered set of named options, with colour
    and order assigned implicitly, deduplicated by value. *)
Record SelectOption := {
  option_id : option string;
  name : string;
  color : option string
}.

Record SelectOptions := { options : option (list SelectOption) }.

(** Modelled from the spec: [FormulaProperty], missing from the sources.
    §3: a formula expression string. *)
Record FormulaProperty := { expression : string }.

(** Modelled from the spec: [RelationProperty], missing from the sources.
    §3: the target database identifier and a relation-type descriptor. *)
Record RelationProperty := { database_id : string; relation_type : string }.

(** Modelled from the spec: [RollUpProperty], missing from the sources.
    §3: the relation property aggregated over, the target property and the
    name of the aggregation function. *)
Record RollUpProperty := {
  relation_property_name : string;
  rollup_property_name : string;
  function : string
}.

#[export] Instance SelectOption_eq_dec : EqDecision SelectOption.
Proof. solve_decision. Defined.

(** A required string entry of a nested payload. *)
Definition required_str (d : dict pyval) (k : string) : checked string :=
  match dict_get d k with
  | None => Invalid NestedError
  | Some v => match str_validator v with
              | Valid s => Valid s
              | Invalid _ => Invalid NestedError
              end
  end.

Definition optional_str (d : dict pyval) (k : string) : checked (option string) :=
  match dict_get d k with
  | None | Some PNone => Valid None
  | Some v => match str_validator v with
              | Valid s => Valid (Some s)
              | Invalid _ => Invalid NestedError
              end
  end.

(** Modelled from the spec: the validation of a raw number payload. *)
Definition parse_NumberFormat (v : pyval) : checked NumberFormat :=
  match v with
  | PDict d => f ← required_str d "format"; Valid {| format := f |}
  | _ => Invalid NestedError
  end.

(** Modelled from the spec: the validation of one raw option. *)
Definition parse_SelectOption (v : pyval) : checked SelectOption :=
  match v with
  | PDict d =>
      i ← optional_str d "id";
      n ← required_str d "name";
      c ← optional_str d "color";
      Valid {| option_id := i; name := n; color := c |}
  | _ => Invalid NestedError
  end.

Fixpoint parse_each {A} (f : pyval → checked A) (l : list pyval)
  : checked (list A) :=
  match l with
  | [] => Valid []
  | v :: l' => a ← f v; r ← parse_each f l'; Valid (a :: r)
  end.

(** Modelled from the spec: the validation of a raw select payload. *)
Definition parse_SelectOptions (v : pyval) : checked SelectOptions :=
  match v with
  | PDict d =>
      match dict_get d "options" with
      | None | Some PNone => Valid {| options := None |}
      | Some (PList l) =>
          os ← parse_each parse_SelectOption l;
          Valid {| options := Some os |}
      | Some _ => Invalid NestedError
      end
  | _ => Invalid NestedError
  end.

(** Modelled from the spec: the validation of a raw formula payload. *)
Definition parse_FormulaProperty (v : pyval) : checked FormulaProperty :=
  match v with
  | PDict d => e ← required_str d "expression"; Valid {| expression := e |}
  | _ => Invalid NestedError
  end.

(** Modelled from the spec: the validation of a raw relation payload. *)
Definition parse_RelationProperty (v : pyval) : checked RelationProperty :=
  match v with
  | PDict d =>
      i ← required_str d "database_id";
      t ← required_str d "type";
      Valid {| database_id := i; relation_type := t |}
  | _ => Invalid NestedError
  end.

(** Modelled from the spec: the validation of a raw rollup payload. *)
Definition parse_RollUpProperty (v : pyval) : checked RollUpProperty :=
  match v with
  | PDict d =>
      r ← required_str d "relation_property_name";
      p ← required_str d "rollup_property_name";
      f ← required_str d "function";
      Valid {| relation_property_name := r; rollup_property_name := p;
               function := f |}
  | _ => Invalid NestedError
  end.

(** Modelled from the spec: [SelectOption.from_value], one option named by
    the value; the name of an option is a string, so a value that is not
    one is a malformed option (§4.2). *)
Definition SelectOption_from_value (value : pyval) : result SelectOption :=
  match str_validator value with
  | Valid s => Ok {| option_id := None; name := s; color := None |}
  | Invalid e => Raise (ValidationError [("name", e)])
  end.

Fixpoint options_from_values (values : list pyval)
  : result (list SelectOption) :=
  match values with
  | [] => Ok []
  | v :: vs =>
      o ← SelectOption_from_value v;
      os ← options_from_values vs;
      Ok (o :: os)
  end.

(** Modelled from the spec: [SelectOptions.from_value], the options named by
    the values, deduplicated by value (§3). *)
Definition SelectOptions_from_value (values : list pyval)
  : result SelectOptions :=
  os ← options_from_values values;
  Ok {| options := Some (remove_dups os) |}.

(** ** The property configurations

    One constructor per subclass of [BasePropertyConfig], in the order of
    their definition, which is the order of [__subclasses__()]. *)

Inductive variant :=
  | TitleConfig | RichTextConfig | NumberConfig | SelectConfig
  | MultiSelectConfig | DateConfig | PeopleConfig | FilesConfig
  | CheckboxConfig | URLConfig | EmailConfig | PhoneNumberConfig
  | FormulaConfig | RelationConfig | RollupConfig | CreatedTimeConfig
  | CreatedByConfig | LastEditedTimeConfig | LastEditedByConfig.

#[export] Instance variant_eq_dec : EqDecision variant.
Proof. solve_decision. Defined.

Definition __subclasses__ : list variant :=
  [ TitleConfig; RichTextConfig; NumberConfig; SelectConfig;
    MultiSelectConfig; DateConfig; PeopleConfig; FilesConfig;
    CheckboxConfig; URLConfig; EmailConfig; PhoneNumberConfig;
    FormulaConfig; RelationConfig; RollupConfig; CreatedTimeConfig;
    CreatedByConfig; LastEditedTimeConfig; LastEditedByConfig ].

Definition __name__ (cls : variant) : string :=
  match cls with
  | TitleConfig => "TitleConfig"
  | RichTextConfig => "RichTextConfig"
  | NumberConfig => "NumberConfig"
  | SelectConfig => "SelectConfig"
  | MultiSelectConfig => "MultiSelectConfig"
  | DateConfig => "DateConfig"
  | PeopleConfig => "PeopleConfig"
  | FilesConfig => "FilesConfig"
  | CheckboxConfig => "CheckboxConfig"
  | URLConfig => "URLConfig"
  | EmailConfig => "EmailConfig"
  | PhoneNumberConfig => "PhoneNumberConfig"
  | FormulaConfig => "FormulaConfig"
  | RelationConfig => "RelationConfig"
  | RollupConfig => "RollupConfig"
  | CreatedTimeConfig => "CreatedTimeConfig"
  | CreatedByConfig => "CreatedByConfig"
  | LastEditedTimeConfig => "LastEditedTimeConfig"
  | LastEditedByConfig => "LastEditedByConfig"
  end.

(** The annotation of the one field a subclass declares. *)
Inductive annotation :=
  | Dict_empty                  (* [x: Dict = {}] with an emptiness validator *)
  | NumberFormat_               (* [number: NumberFormat] *)
  | Optional_SelectOptions      (* [select: Optional[SelectOptions]] *)
  | FormulaProperty_            (* [formula: FormulaProperty] *)
  | RelationProperty_           (* [relation: RelationProperty] *)
  | RollUpProperty_.            (* [roll_up: RollUpProperty] *)

(** The field declared in the body of each subclass (name, annotation). *)
Definition own_field (cls : variant) : string * annotation :=
  match cls with
  | TitleConfig => ("title", Dict_empty)
  | RichTextConfig => ("rich_text", Dict_empty)
  | NumberConfig => ("number", NumberFormat_)
  | SelectConfig => ("select", Optional_SelectOptions)
  | MultiSelectConfig => ("multi_select", Optional_SelectOptions)
  | DateConfig => ("date", Dict_empty)
  | PeopleConfig => ("people", Dict_empty)
  | FilesConfig => ("files", Dict_empty)
  | CheckboxConfig => ("checkbox", Dict_empty)
  | URLConfig => ("url", Dict_empty)
  | EmailConfig => ("email", Dict_empty)
  | PhoneNumberConfig => ("phone_number", Dict_empty)
  | FormulaConfig => ("formula", FormulaProperty_)
  | RelationConfig => ("relation", RelationProperty_)
  | RollupConfig => ("roll_up", RollUpProperty_)
  | CreatedTimeConfig => ("created_time", Dict_empty)
  | CreatedByConfig => ("created_by", Dict_empty)
  | LastEditedTimeConfig => ("last_edited_time", Dict_empty)
  | LastEditedByConfig => ("last_edited_by", Dict_empty)
  end.

(** [cls.__fields__.keys()]: the inherited fields come first. *)
Definition __fields__ (cls : variant) : list string :=
  ["id"; "type"; fst (own_field cls)].

(** The validated value of the field a subclass declares. *)
Inductive own_value :=
  | OwnDict (d : pydict)
  | OwnNumber (x : NumberFormat)
  | OwnSelect (x : option SelectOptions)
  | OwnFormula (x : FormulaProperty)
  | OwnRelation (x : RelationProperty)
  | OwnRollUp (x : RollUpProperty).

Record PropertyConfig := {
  cls : variant;
  id : option string;
  type : option string;
  own : own_value
}.

(** A keyword argument of a constructor call: a raw payload value, or an
    instance of one of the models of [notion_df.base]. *)
Inductive model_instance :=
  | INumberFormat (x : NumberFormat)
  | ISelectOptions (x : SelectOptions)
  | IFormulaProperty (x : FormulaProperty)
  | IRelationProperty (x : RelationProperty)
  | IRollUpProperty (x : RollUpProperty).

Inductive argument :=
  | Raw (v : pyval)
  | Instance_ (m : model_instance).

Definition render_opt (o : option string) : pyval :=
  match o with Some s => PStr s | None => PNone end.

(** [dict(m)] of a model instance: its fields, by name.  The values are
    rendered as payload values; the validators below observe only whether
    the dictionary is empty. *)
Definition instance_items (m : model_instance) : pydict :=
  match m with
  | INumberFormat x => [(PStr "format", PStr (format x))]
  | ISelectOptions x =>
      [(PStr "options",
        match options x with
        | None => PNone
        | Some os =>
            PList (map (fun o => PDict [("id", render_opt (option_id o));
                                        ("name", PStr (name o));
                                        ("color", render_opt (color o))]) os)
        end)]
  | IFormulaProperty x => [(PStr "expression", PStr (expression x))]
  | IRelationProperty x =>
      [(PStr "database_id", PStr (database_id x));
       (PStr "type", PStr (relation_type x))]
  | IRollUpProperty x =>
      [(PStr "relation_property_name", PStr (relation_property_name x));
       (PStr "rollup_property_name", PStr (rollup_property_name x));
       (PStr "function", PStr (function x))]
  end.

(** [Optional[str]]: [None] is let through, otherwise [str_validator]. *)
Definition validate_optional_str (a : argument) : checked (option string) :=
  match a with
  | Raw PNone => Valid None
  | Raw v => s ← str_validator v; Valid (Some s)
  | Instance_ _ => Invalid StrError
  end.

(** Lines 38-45. *)
Definition automatically_set_type_value (cls : variant) (v : option string)
  : checked string :=
  let _type := List.last (__fields__ cls) "" in
  match v with
  | None => Valid _type
  | Some v =>
      if String.eqb _type v then Valid _type
      else Invalid (AssertionError_ (_type ++ " != " ++ v))
  end.

(** Lines 52-56 and the twelve validators of the same body: the field name
    occurs in the message only. *)
Definition title_is_empty_dict (field : string) (v : pydict) : checked pydict :=
  match v with
  | [] => Valid v
  | _ => Invalid (ValueError_ ("The " ++ field ++ " dict must be empty"))
  end.

(** The field [x: Dict = {}] on a supplied value: [None] is not allowed,
    then [dict_validator], then the class validator. *)
Definition validate_Dict_empty (field : string) (a : argument)
  : checked own_value :=
  match a with
  | Raw PNone => Invalid NoneIsNotAllowedError
  | Raw v => d ← dict_validator v; d ← title_is_empty_dict field d;
             Valid (OwnDict d)
  | Instance_ m => d ← title_is_empty_dict field (instance_items m);
                   Valid (OwnDict d)
  end.

Definition validate_own (field : string) (ann : annotation) (a : argument)
  : checked own_value :=
  match ann with
  | Dict_empty => validate_Dict_empty field a
  | NumberFormat_ =>
      match a with
      | Instance_ (INumberFormat x) => Valid (OwnNumber x)
      | Raw PNone => Invalid NoneIsNotAllowedError
      | Raw v => x ← parse_NumberFormat v; Valid (OwnNumber x)
      | Instance_ _ => Invalid NestedError
      end
  | Optional_SelectOptions =>
      match a with
      | Instance_ (ISelectOptions x) => Valid (OwnSelect (Some x))
      | Raw PNone => Valid (OwnSelect None)
      | Raw v => x ← parse_SelectOptions v; Valid (OwnSelect (Some x))
      | Instance_ _ => Invalid NestedError
      end
  | FormulaProperty_ =>
      match a with
      | Instance_ (IFormulaProperty x) => Valid (OwnFormula x)
      | Raw PNone => Invalid NoneIsNotAllowedError
      | Raw v => x ← parse_FormulaProperty v; Valid (OwnFormula x)
      | Instance_ _ => Invalid NestedError
      end
  | RelationProperty_ =>
      match a with
      | Instance_ (IRelationProperty x) => Valid (OwnRelation x)
      | Raw PNone => Invalid NoneIsNotAllowedError
      | Raw v => x ← parse_RelationProperty v; Valid (OwnRelation x)
      | Instance_ _ => Invalid NestedError
      end
  | RollUpProperty_ =>
      match a with
      | Instance_ (IRollUpProperty x) => Valid (OwnRollUp x)
      | Raw PNone => Invalid NoneIsNotAllowedError
      | Raw v => x ← parse_RollUpProperty v; Valid (OwnRollUp x)
      | Instance_ _ => Invalid NestedError
      end
  end.

(** The value of the field when the call does not supply it: the declared
    default, [None] for an [Optional] field, an error for a required one. *)
Definition default_own (ann : annotation) : checked own_value :=
  match ann with
  | Dict_empty => Valid (OwnDict [])
  | Optional_SelectOptions => Valid (OwnSelect None)
  | _ => Invalid MissingError
  end.

Definition field_errors {A} (field : string) (r : checked A)
  : list (string * field_error) :=
  match r with
  | Valid _ => []
  | Invalid e => [(field, e)]
  end.

(** A call of the class with keyword arguments, that is pydantic's
    [validate_model].  The fields are
    visited in the order of [__fields__].  A field that is not supplied
    takes its default and, no validator of this module being declared with
    [always=True], is not validated; a supplied field goes through the
    validator of its type and then through its class validator.  All field
    errors are reported in one [ValidationError]. *)
Definition instantiate (cls : variant) (kwargs : dict argument)
  : result PropertyConfig :=
  let '(field, ann) := own_field cls in
  let r_id :=
    match dict_get kwargs "id" with
    | None => Valid None
    | Some a => validate_optional_str a
    end in
  let r_type :=
    match dict_get kwargs "type" with
    | None => Valid None
    | Some a => v ← validate_optional_str a;
                t ← automatically_set_type_value cls v;
                Valid (Some t)
    end in
  let r_own :=
    match dict_get kwargs field with
    | None => default_own ann
    | Some a => validate_own field ann a
    end in
  match r_id, r_type, r_own with
  | Valid i, Valid t, Valid o =>
      Ok {| cls := cls; id := i; type := t; own := o |}
  | _, _, _ =>
      Raise (ValidationError (field_errors "id" r_id ++
                              field_errors "type" r_type ++
                              field_errors field r_own))
  end.

(** Lines 212-215. *)
Definition CONFIGS_MAPPING : dict variant :=
  dict_of_items
    (map (fun _cls => (_convert_classname_to_typename (__name__ _cls), _cls))
         __subclasses__).

(** Lines 218-219.  [parse_obj_as(cls, data)] on a dictionary calls
    [cls] with the entries of [data] as keyword arguments. *)
Definition parse_single_config (data : dict pyval) : result PropertyConfig :=
  match dict_get data "type" with
  | None => Raise (KeyError (PStr "type"))
  | Some (PStr t) =>
      match dict_get CONFIGS_MAPPING t with
      | None => Raise (KeyError (PStr t))
      | Some cls => instantiate cls (map (fun kv => (fst kv, Raw (snd kv))) data)
      end
  | Some (PList _ as t) | Some (PDict _ as t) =>
      Raise (TypeError "unhashable type")
  | Some t => Raise (KeyError t)
  end.

(** ** pandas: cells, dtypes, series and data frames *)

(** An object held by a cell, or by a list-like cell as one of its
    elements.  A timestamp is carried as its rendering.  So is an object
    that has no hash: a list, a dict or a set nested in a list-like cell
    (or, as a cell of its own, an object that is neither hashable nor
    iterable); the module does nothing with such an object but hash it and
    take its [str].  An integer is taken to fit the 64 bits of an integer
    column.  Floating-point numbers are not part of the model. *)
Inductive scalar :=
  | SNone                            (* the missing value *)
  | SBool (b : bool)
  | SInt (n : Z)
  | SStr (s : string)
  | STime (iso : string)
  | SUnhashable (rendering : string).

(** A cell of a column: an object that is not list-like, or a list-like
    collection (a list, a tuple, a set; a dict, which iterates over its
    keys) given by the objects it yields. *)
Inductive value :=
  | Scalar (x : scalar)
  | ListLike (xs : list scalar).

Definition missing : value := Scalar SNone.

(** [str(x)]. *)
Definition py_str (x : scalar) : string :=
  match x with
  | SNone => "None"
  | SBool b => str_of_bool b
  | SInt n => pretty n
  | SStr s => s
  | STime iso => iso
  | SUnhashable rendering => rendering
  end.

(** [hash(x)] returns: [TypeError: unhashable type] otherwise. *)
Definition hashable_scalar (x : scalar) : bool :=
  match x with SUnhashable _ => false | _ => true end.

(** [x == y], which is also the equality of the elements of a [set].  Two
    objects without a hash never meet in a set; they are compared here by
    their renderings. *)
Definition scalar_eqb (x y : scalar) : bool :=
  match x, y with
  | SNone, SNone => true
  | SBool a, SBool b => Bool.eqb a b
  | SInt a, SInt b => (a =? b)%Z
  | SBool a, SInt b | SInt b, SBool a => (int_of_bool a =? b)%Z
  | SStr a, SStr b => String.eqb a b
  | STime a, STime b => String.eqb a b
  | SUnhashable a, SUnhashable b => String.eqb a b
  | _, _ => false
  end.

(** [pandas.api.types.is_list_like]: a string is not list-like. *)
Definition is_list_like (v : value) : bool :=
  match v with
  | ListLike _ => true
  | Scalar _ => false
  end.

(** [s.add(x)]: an element equal to one already present is dropped, and
    the one present stays. *)
Definition set_add (s : list scalar) (x : scalar) : list scalar :=
  if existsb (scalar_eqb x) s then s else s ++ [x].

(** [set(l)]: every element is hashed, so an element without a hash raises
    [TypeError]; of equal elements the first is kept.  The order in which
    a set is iterated is not specified; the members are kept here in the
    order of their first occurrence, and no statement below depends on
    it. *)
Definition py_set (l : list scalar) : result (list scalar) :=
  if forallb hashable_scalar l then Ok (fold_left set_add l [])
  else Raise (TypeError "unhashable type").

(** [itertools.chain.from_iterable]: every item has to be iterable. *)
Fixpoint chain_from_iterable (l : list value) : result (list scalar) :=
  match l with
  | [] => Ok []
  | ListLike xs :: l' => r ← chain_from_iterable l'; Ok (xs ++ r)
  | Scalar (SStr s) :: l' =>
      r ← chain_from_iterable l';
      Ok (map (fun c => SStr (String c EmptyString)) (list_ascii_of_string s) ++ r)
  | Scalar _ :: _ => Raise (TypeError "object is not iterable")
  end.

Inductive np_dtype :=
  | object_
  | int64
  | float64
  | bool_
  | datetime64
  | timedelta64
  | category (categories : list scalar).

Definition is_object_dtype (d : np_dtype) : bool :=
  match d with object_ => true | _ => false end.

(** pandas counts the boolean dtype among the numeric ones: the predicate
    tests the scalar type against [np.number] and [np.bool_]. *)
Definition is_numeric_dtype (d : np_dtype) : bool :=
  match d with int64 | float64 | bool_ => true | _ => false end.

Definition is_bool_scalar (x : scalar) : bool :=
  match x with SBool _ => true | _ => false end.

(** A categorical dtype is boolean when its categories are. *)
Definition is_bool_dtype (d : np_dtype) : bool :=
  match d with
  | bool_ => true
  | category cats =>
      match cats with [] => false | _ => forallb is_bool_scalar cats end
  | _ => false
  end.

Definition is_categorical_dtype (d : np_dtype) : bool :=
  match d with category _ => true | _ => false end.

Definition is_datetime64_any_dtype (d : np_dtype) : bool :=
  match d with datetime64 => true | _ => false end.

Record Series := { dtype : np_dtype; values : list value }.

(** A data frame: its columns, in order, under their labels. *)
Definition DataFrame := list (string * Series).

Definition columns (df : DataFrame) : list string := map fst df.

(** The frames of this development carry pairwise distinct labels. *)
Definition distinct_labels (df : DataFrame) : Prop := NoDup (columns df).

(** [df[col]]: the series under the label, and a frame when the label is
    repeated. *)
Inductive selection :=
  | OneSeries (s : Series)
  | SubFrame (df : DataFrame).

Definition getitem (df : DataFrame) (col : string) : result selection :=
  match filter (fun c => String.eqb (fst c) col = true)
               (df : list (string * Series)) with
  | [] => Raise (KeyError (PStr col))
  | [c] => Ok (OneSeries (snd c))
  | sub => Ok (SubFrame sub)
  end.

Definition is_scalar_where (p : scalar → bool) (v : value) : bool :=
  match v with Scalar x => p x | ListLike _ => false end.

Definition is_int_scalar (x : scalar) : bool :=
  match x with SInt _ => true | _ => false end.

Definition is_time_scalar (x : scalar) : bool :=
  match x with STime _ => true | _ => false end.

Definition is_none_scalar (x : scalar) : bool :=
  match x with SNone => true | _ => false end.

(** The dtype pandas infers for a sequence of objects
    ([lib.maybe_convert_objects]): booleans only give [bool]; integers
    only give [int64]; integers and missing values give [float64], the
    missing values turning into NaN; timestamps, with or without missing
    values, give [datetime64], the missing values turning into NaT.
    Anything else stays [object]: an empty sequence, missing values alone,
    booleans with missing values, strings, list-likes, a mixture.  Only the
    dtype is computed: the cells are kept as they are, [SNone] standing for
    NaN and NaT too, and an [SInt] of a [float64] column for the float of
    that value. *)
Definition infer_dtype (vs : list value) : np_dtype :=
  match vs with
  | [] => object_
  | _ =>
      if forallb (is_scalar_where is_bool_scalar) vs then bool_
      else if forallb (is_scalar_where is_int_scalar) vs then int64
      else if forallb (is_scalar_where
                         (fun x => is_int_scalar x || is_none_scalar x)) vs
              && existsb (is_scalar_where is_int_scalar) vs
           then float64
      else if forallb (is_scalar_where
                         (fun x => is_time_scalar x || is_none_scalar x)) vs
              && existsb (is_scalar_where is_time_scalar) vs
           then datetime64
      else object_
  end.

(** [df.infer_objects()]: a new frame in which the object columns are
    soft-converted. *)
Definition infer_objects (df : DataFrame) : DataFrame :=
  map (fun c =>
         (fst c,
          if is_object_dtype (dtype (snd c))
          then {| dtype := infer_dtype (values (snd c));
                  values := values (snd c) |}
          else snd c)) df.

(** [s.apply(f)]: a new series, whose dtype is inferred from the results. *)
Fixpoint map_result {A B} (f : A → result B) (l : list A) : result (list B) :=
  match l with
  | [] => Ok []
  | a :: l' => b ← f a; r ← map_result f l'; Ok (b :: r)
  end.

Definition apply (f : value → result value) (s : Series) : result Series :=
  vs ← map_result f (values s);
  Ok {| dtype := infer_dtype vs; values := vs |}.

(** ** notion_df.utils

    The three transforms imported from [notion_df.utils] are not part of the
    sources at hand.  They are parameters of the development; a sanitiser is
    a function on cells that may raise. *)

Definition sanitizer := value → result value.

Class Utils := {
  SECURE_STR_TRANSFORM : sanitizer;
  SECURE_BOOL_TRANSFORM : sanitizer;
  SECURE_TIME_TRANSFORM : sanitizer
}.

(** Modelled from the spec: the transforms of [notion_df.utils], missing
    from the sources, as §4.5 names them: coerce to a safe string, boolean
    or timestamp, a missing value staying missing. *)
Definition reference_str : sanitizer := fun v =>
  match v with
  | Scalar SNone => Ok v
  | Scalar x => Ok (Scalar (SStr (py_str x)))
  | ListLike xs =>
      Ok (Scalar (SStr (String.concat ", " (map py_str xs))))
  end.

Definition reference_bool : sanitizer := fun v =>
  match v with
  | Scalar SNone => Ok v
  | Scalar (SBool b) => Ok v
  | Scalar (SInt n) => Ok (Scalar (SBool (negb (n =? 0)%Z)))
  | Scalar (SStr s) => Ok (Scalar (SBool (negb (String.eqb s ""))))
  | Scalar (STime _) => Ok (Scalar (SBool true))
  | Scalar (SUnhashable _) => Ok (Scalar (SBool true))
  | ListLike xs => Ok (Scalar (SBool (match xs with [] => false | _ => true end)))
  end.

Definition reference_time : sanitizer := fun v =>
  match v with
  | Scalar SNone => Ok v
  | Scalar (STime _) => Ok v
  | Scalar x => Ok (Scalar (STime (py_str x)))
  | ListLike xs => Ok (Scalar (STime (String.concat ", " (map py_str xs))))
  end.

Definition reference_utils : Utils := {|
  SECURE_STR_TRANSFORM := reference_str;
  SECURE_BOOL_TRANSFORM := reference_bool;
  SECURE_TIME_TRANSFORM := reference_time
|}.

(** ** The sanitisation table, inference and the schema *)

Section Configs.

Context {U : Utils}.

(** Line 227. *)
Definition multi_select_transform : sanitizer := fun lst =>
  match lst with
  | ListLike xs => Ok (ListLike (map (fun ele => SStr (py_str ele)) xs))
  | Scalar x => Ok (Scalar (SStr (py_str x)))
  end.

(** Lines 222-243. *)
Definition CONFIGS_DF_TRANSFORMER : dict (option sanitizer) :=
  dict_of_items
  [ ("title", Some SECURE_STR_TRANSFORM);
    ("rich_text", Some SECURE_STR_TRANSFORM);
    ("number", None);
    ("select", Some SECURE_STR_TRANSFORM);
    ("multi_select", Some multi_select_transform);
    ("date", Some SECURE_TIME_TRANSFORM);
    ("checkbox", Some SECURE_BOOL_TRANSFORM);
    ("people", Some SECURE_STR_TRANSFORM);
    ("files", Some SECURE_STR_TRANSFORM);
    ("url", Some SECURE_STR_TRANSFORM);
    ("email", Some SECURE_STR_TRANSFORM);
    ("phone_number", Some SECURE_STR_TRANSFORM);
    ("formula", Some SECURE_STR_TRANSFORM);
    ("relation", Some SECURE_STR_TRANSFORM);
    ("rollup", Some SECURE_STR_TRANSFORM);
    ("created_time", Some SECURE_STR_TRANSFORM);
    ("created_by", Some SECURE_STR_TRANSFORM);
    ("last_edited_time", Some SECURE_STR_TRANSFORM);
    ("last_edited_by", Some SECURE_STR_TRANSFORM) ].

End Configs.

(** Lines 251-254: the rows are chained, the elements are put in a set, and
    the members of the set are turned into strings. *)
Definition all_possible_values (column : Series) : result (list string) :=
  elements ← chain_from_iterable (values column);
  all_possible_values ← py_set elements;
  Ok (map (fun ele => py_str ele) all_possible_values).

(** Lines 246-271.  The result is [None] when no test applies. *)
Definition _infer_series_config (column : Series)
  : result (option PropertyConfig) :=
  let dtype := dtype column in
  if is_object_dtype dtype then
    if forallb is_list_like (values column) then
      all_possible_values ← all_possible_values column;
      opts ← SelectOptions_from_value (map PStr all_possible_values);
      c ← instantiate MultiSelectConfig
            [("multi_select", Instance_ (ISelectOptions opts))];
      Ok (Some c)
    else
      c ← instantiate RichTextConfig []; Ok (Some c)
  else if is_numeric_dtype dtype then
    c ← instantiate NumberConfig
          [("number", Instance_ (INumberFormat {| format := "number" |}))];
    Ok (Some c)
  else if is_bool_dtype dtype then
    c ← instantiate CheckboxConfig []; Ok (Some c)
  else if is_categorical_dtype dtype then
    match dtype with
    | category categories =>
        (* [[str for cat in dtype.categories]]: the type object, once per
           category *)
        opts ← SelectOptions_from_value (map (fun cat => PStrType) categories);
        c ← instantiate SelectConfig
              [("select", Instance_ (ISelectOptions opts))];
        Ok (Some c)
    | _ => Raise (AttributeError "categories")
    end
  else if is_datetime64_any_dtype dtype then
    c ← instantiate DateConfig []; Ok (Some c)
  else Ok None.

(** Lines 274-277.  An entry is [None] when inference found no variant. *)
Record DatabaseSchema := { configs : dict (option PropertyConfig) }.

(** The dictionary comprehension of line 282. *)
Fixpoint parse_items (items : list (string * dict pyval))
    (acc : dict (option PropertyConfig)) : result (dict (option PropertyConfig)) :=
  match items with
  | [] => Ok acc
  | (key, config) :: rest =>
      c ← parse_single_config config;
      parse_items rest (dict_set acc key (Some c))
  end.

(** Lines 279-283. *)
Definition from_raw (configs : dict (dict pyval)) : result DatabaseSchema :=
  configs ← parse_items configs [];
  Ok {| configs := configs |}.

(** Lines 285-286. *)
Definition __getitem__ (self : DatabaseSchema) (key : string)
  : result (option PropertyConfig) :=
  match dict_get (configs self) key with
  | Some c => Ok c
  | None => Raise (KeyError (PStr key))
  end.

(** The loop of lines 299-301.  A repeated label makes [df[col]] a frame,
    which has no attribute [dtype]. *)
Fixpoint infer_columns (df : DataFrame) (cols : list string)
    (configs : dict (option PropertyConfig))
  : result (dict (option PropertyConfig)) :=
  match cols with
  | [] => Ok configs
  | col :: rest =>
      sel ← getitem df col;
      config ← match sel with
               | OneSeries s => _infer_series_config s
               | SubFrame _ =>
                   Raise (AttributeError
                            "'DataFrame' object has no attribute 'dtype'")
               end;
      infer_columns df rest (dict_set configs col config)
  end.

(** Lines 291-308. *)
Definition from_df (df : DataFrame) (title_col : option string)
  : result DatabaseSchema :=
  let df := infer_objects df in
  configs ← infer_columns df (columns df) [];
  title ← instantiate TitleConfig [];
  match title_col with
  | Some title_col =>
      Ok {| configs := dict_set configs title_col (Some title) |}
  | None =>
      match columns df with
      | [] => Raise (IndexError "index 0 is out of bounds")
      | first :: _ =>
          Ok {| configs := dict_set configs first (Some title) |}
      end
  end.

(** ** The store of data frames

    [transform] copies the frame it is given and assigns to the columns of
    the copy.  Frames are objects: a reference names a frame in the store,
    and assignment through a reference is seen through every alias. *)

Abbreviation loc := nat (only parsing).
Abbreviation store := (gmap nat DataFrame) (only parsing).

Definition stateful (A : Type) : Type := store → result A * store.

#[export] Instance stateful_ret : MRet stateful := fun A a σ => (Ok a, σ).
#[export] Instance stateful_bind : MBind stateful := fun A B k m σ =>
  match m σ with
  | (Ok a, σ') => k a σ'
  | (Raise e, σ') => (Raise e, σ')
  end.

Definition lift {A} (r : result A) : stateful A := fun σ => (r, σ).

Definition read (df : loc) : stateful DataFrame := fun σ =>
  match σ !! df with
  | Some d => (Ok d, σ)
  | None => (Raise (AttributeError "no such object"), σ)
  end.

Definition alloc (d : DataFrame) : stateful loc := fun σ =>
  let l := fresh (dom σ) in (Ok l, <[l := d]> σ).

Definition write (df : loc) (d : DataFrame) : stateful unit := fun σ =>
  (Ok tt, <[df := d]> σ).

(** [df.copy()]: a new object with the same columns. *)
Definition copy (df : loc) : stateful loc :=
  d ← read df; alloc d.

(** [df[col] = s]: assignment in place. *)
Definition setitem (df : loc) (col : string) (s : Series) : stateful unit :=
  d ← read df; write df (dict_set d col s).

(** [df[col].apply(f)].  With a repeated label the selection is a frame;
    what pandas does with it is outside this development, which covers the
    frames with distinct labels and records the case as an exception. *)
Definition apply_column (df : loc) (col : string) (f : sanitizer)
  : stateful Series :=
  d ← read df;
  sel ← lift (getitem d col);
  match sel with
  | OneSeries s => lift (apply f s)
  | SubFrame _ => lift (Raise (TypeError "repeated column label"))
  end.

Section Transform.

Context {U : Utils}.

(** [CONFIGS_DF_TRANSFORMER[self[col].type]], line 328. *)
Definition resolve (self : DatabaseSchema) (col : string)
  : result (option sanitizer) :=
  config ← __getitem__ self col;
  match config with
  | None => Raise (AttributeError "'NoneType' object has no attribute 'type'")
  | Some config =>
      match type config with
      | None => Raise (KeyError PNone)
      | Some t =>
          match dict_get CONFIGS_DF_TRANSFORMER t with
          | Some transform => Ok transform
          | None => Raise (KeyError (PStr t))
          end
      end
  end.

(** The body of the loop, lines 328-330. *)
Definition transform_column (self : DatabaseSchema) (df : loc) (col : string)
  : stateful unit :=
  transform ← lift (resolve self col);
  match transform with
  | Some transform =>
      s ← apply_column df col transform;
      setitem df col s
  | None => mret tt
  end.

(** The loop of lines 327-330. *)
Fixpoint transform_columns (self : DatabaseSchema) (df : loc)
    (cols : list string) : stateful unit :=
  match cols with
  | [] => mret tt
  | col :: rest =>
      transform_column self df col;;
      transform_columns self df rest
  end.

(** Lines 324-331. *)
Definition transform (self : DatabaseSchema) (df : loc) : stateful loc :=
  df ← copy df;
  d ← read df;
  transform_columns self df (columns d);;
  mret df.

End Transform.

(** ** Vocabulary of the specification *)

(** The tag under which the registry files a variant. *)
Definition registry_tag (cls : variant) : string :=
  _convert_classname_to_typename (__name__ cls).

(** The variants that carry no configuration of their own. *)
Definition structural_only : list variant :=
  [ TitleConfig; RichTextConfig; DateConfig; PeopleConfig; FilesConfig;
    CheckboxConfig; URLConfig; EmailConfig; PhoneNumberConfig;
    CreatedTimeConfig; CreatedByConfig; LastEditedTimeConfig;
    LastEditedByConfig ].

(** An [id] that [Optional[str]] accepts: absent, [None], or a value that
    [str_validator] lets through. *)
Definition acceptable_id (data : dict pyval) : Prop :=
  match dict_get data "id" with
  | None | Some PNone | Some (PStr _) | Some (PInt _) | Some (PBool _) => True
  | Some _ => False
  end.

(** The elements of the rows of a column of list-likes. *)
Definition row_items (v : value) : list scalar :=
  match v with
  | ListLike xs => xs
  | Scalar _ => []
  end.


(** The configuration a call without arguments builds. *)
Definition bare (cls : variant) (o : own_value) : PropertyConfig :=
  {| cls := cls; id := None; type := None; own := o |}.

(** The option that [SelectOption.from_value] names by a string. *)
Definition named (s : string) : SelectOption :=
  {| option_id := None; name := s; color := None |}.

(** The elements of all the rows of a column. *)
Definition elements (column : Series) : list scalar :=
  flat_map row_items (values column).


(** The configuration that inference builds from the strings handed to
    [SelectOptions.from_value]. *)
Definition multi_select_config (strs : list string) : PropertyConfig :=
  bare MultiSelectConfig
       (OwnSelect (Some {| options := Some (remove_dups (map named strs)) |})).

(** The configurations that inference builds for a numeric column and for
    the title column. *)
Definition number_config : PropertyConfig :=
  bare NumberConfig (OwnNumber {| format := "number" |}).

Definition title_config : PropertyConfig := bare TitleConfig (OwnDict []).

(** The entry that [from_raw] builds from one item of its input. *)
Definition parsed_as (kv : string * dict pyval)
    (e : string * option PropertyConfig) : Prop :=
  fst e = fst kv ∧ ∃ c, parse_single_config (snd kv) = Ok c ∧ snd e = Some c.

(** The entry that [from_df] infers for one column. *)
Definition inferred_as (c : string * Series)
    (e : string * option PropertyConfig) : Prop :=
  fst e = fst c ∧ _infer_series_config (snd c) = Ok (snd e).

Section Frames.

Context {U : Utils}.

(** What the loop of [transform] may do to the frame it works on: the
    labels stay, and so does every column whose tag resolves to no
    sanitiser. *)
Definition frame_step (self : DatabaseSchema) (d d' : DataFrame) : Prop :=
  columns d' = columns d ∧
  ∀ (i : nat) k v, d !! i = Some (k, v) → resolve self k = Ok None →
                   d' !! i = Some (k, v).

(** What it may do to the store: the frame at [l] takes a [frame_step],
    every other object is left as it is. *)
Definition store_step (self : DatabaseSchema) (l : loc) (σ σ' : store) : Prop :=
  (∀ l', l' ≠ l → σ' !! l' = σ !! l') ∧
  ∀ d, σ !! l = Some d → ∃ d', σ' !! l = Some d' ∧ frame_step self d d'.

End Frames.

(** ** Equality of schemas and is_df_compatible *)

Fixpoint pyval_eq_dec (x y : pyval) : {x = y} + {x ≠ y}.
Proof.
  decide equality.
  - apply Bool.bool_dec.
  - apply Z.eq_dec.
  - apply String.string_dec.
  - apply (list_eq_dec (dec := pyval_eq_dec)).
  - refine (list_eq_dec (dec := _) _ _). intros [a1 b1] [a2 b2].
    destruct (String.string_dec a1 a2) as [->|]; [|right; congruence].
    destruct (pyval_eq_dec b1 b2) as [->|]; [left; done | right; congruence].
Defined.

#[export] Instance pyval_eqdec : EqDecision pyval := pyval_eq_dec.
#[export] Instance NumberFormat_eq_dec : EqDecision NumberFormat.
Proof. solve_decision. Defined.
#[export] Instance SelectOptions_eq_dec : EqDecision SelectOptions.
Proof. solve_decision. Defined.
#[export] Instance FormulaProperty_eq_dec : EqDecision FormulaProperty.
Proof. solve_decision. Defined.
#[export] Instance RelationProperty_eq_dec : EqDecision RelationProperty.
Proof. solve_decision. Defined.
#[export] Instance RollUpProperty_eq_dec : EqDecision RollUpProperty.
Proof. solve_decision. Defined.
#[export] Instance own_value_eq_dec : EqDecision own_value.
Proof. solve_decision. Defined.
#[export] Instance PropertyConfig_eq_dec : EqDecision PropertyConfig.
Proof. solve_decision. Defined.

(** [d1 == d2] on dictionaries: as many keys on both sides, and every key
    of [d1] bound in [d2] to an equal value.  The order of the keys is
    immaterial. *)
Definition dict_eqb {V} (veq : V → V → bool) (d1 d2 : dict V) : bool :=
  Nat.eqb (List.length d1) (List.length d2) &&
  forallb (fun kv => match dict_get d2 (fst kv) with
                     | Some v' => veq (snd kv) v'
                     | None => false
                     end) d1.

(** [s1 == s2] on schemas.  The [__eq__] that [@dataclass] generates
    compares the fields, here the two [configs] dictionaries; an entry is
    [None] or a model, and pydantic compares two models through their
    [.dict()], which on configurations that went through validation is the
    equality of the records. *)
Definition schema_eqb (s1 s2 : DatabaseSchema) : bool :=
  dict_eqb (fun a b => bool_decide (a = b)) (configs s1) (configs s2).

(** The truth value of a pandas object is not defined: [not x] raises
    [ValueError] on a series or a frame. *)
Inductive truth_error := ValueError_truth_value_is_ambiguous.

(** Lines 310-322.  [attr] is the value of the attribute [schema] when one
    has been set on the frame.  Without it [hasattr(df, "schema")] still
    holds of a frame with a column labelled [schema], since pandas exposes
    the columns as attributes: [df.schema == self] is then a pandas object
    of booleans, and its negation raises.  Otherwise the labels are looked
    up among the keys, and the first one that is missing decides. *)
Definition is_df_compatible (self : DatabaseSchema)
    (attr : option DatabaseSchema) (df : DataFrame) : truth_error + bool :=
  match attr with
  | Some schema => inr (schema_eqb schema self)
  | None =>
      if bool_decide ("schema" ∈ columns df)
      then inl ValueError_truth_value_is_ambiguous
      else inr (forallb (fun col => bool_decide (col ∈ keys (configs self)))
                        (columns df))
  end.

(** ** Further vocabulary *)

(** A configuration as the constructors leave it when [type] and [id] are
    not supplied. *)
Definition untagged (e : option PropertyConfig) : Prop :=
  match e with
  | Some c => type c = None ∧ id c = None
  | None => True
  end.

Section Sanitised.

Context {U : Utils}.

(** The column that [transform] puts in the place of a column: the column
    itself when its tag resolves to no sanitiser, and else the result of
    applying the sanitiser to it. *)
Definition sanitized_as (self : DatabaseSchema) (c c' : string * Series)
  : Prop :=
  fst c' = fst c ∧
  ∃ t, resolve self (fst c) = Ok t ∧
       match t with
       | None => snd c' = snd c
       | Some f => apply f (snd c) = Ok (snd c')
       end.

End Sanitised.



(** * Properties *)

(** ** Dictionaries *)

Lemma dict_get_map {V W} (f : V → W) (d : dict V) (k : string) :
  dict_get (map (fun kv => (fst kv, f (snd kv))) d) k = f <$> dict_get d k.
Proof.
  induction d as [|[k' v] d IH]; simpl; [done|].
  destruct (String.eqb k' k); [done | apply IH].
Qed.

Lemma dict_get_Some_In {V} (d : dict V) k v :
  dict_get d k = Some v → (k, v) ∈ d.
Proof.
  induction d as [|[k' v'] d IH]; simpl; [done|].
  destruct (String.eqb_spec k' k) as [->|Hne].
  - intros [= ->]. left.
  - intros H. right. auto.
Qed.

Lemma dict_get_None_keys {V} (d : dict V) k :
  dict_get d k = None ↔ k ∉ keys d.
Proof.
  unfold keys. induction d as [|[k' v'] d IH]; simpl.
  - split; [intros _; apply not_elem_of_nil | done].
  - rewrite not_elem_of_cons. destruct (String.eqb_spec k' k) as [->|Hne].
    + split; [done | intros [? _]; done].
    + rewrite IH. split; [intros ?; split; [congruence | done] | tauto].
Qed.

Lemma dict_set_fresh {V} (d : dict V) k v :
  k ∉ keys d → dict_set d k v = d ++ [(k, v)].
Proof.
  unfold keys. induction d as [|[k' v'] d IH]; simpl; [done|].
  rewrite not_elem_of_cons. intros [Hne Hnin].
  destruct (String.eqb_spec k' k) as [->|_]; [done|].
  by rewrite IH.
Qed.

Lemma dict_get_set_eq {V} (d : dict V) k v :
  dict_get (dict_set d k v) k = Some v.
Proof.
  induction d as [|[k' v'] d IH]; simpl.
  - by rewrite String.eqb_refl.
  - destruct (String.eqb k' k) eqn:E; simpl; rewrite E; [done | apply IH].
Qed.

Lemma dict_get_set_ne {V} (d : dict V) k k' v :
  k ≠ k' → dict_get (dict_set d k v) k' = dict_get d k'.
Proof.
  intros Hne. induction d as [|[k0 v0] d IH]; simpl.
  - destruct (String.eqb_spec k k'); [done | done].
  - destruct (String.eqb_spec k0 k) as [->|Hk]; simpl.
    + destruct (String.eqb_spec k k'); [done | done].
    + destruct (String.eqb k0 k'); [done | apply IH].
Qed.

Lemma keys_dict_set_present {V} (d : dict V) k v :
  k ∈ keys d → keys (dict_set d k v) = keys d.
Proof.
  unfold keys. induction d as [|[k' v'] d IH]; simpl.
  - intros H. by apply elem_of_nil in H.
  - destruct (String.eqb_spec k' k) as [->|Hne]; [done|].
    intros [?|H]%elem_of_cons; [congruence|]. simpl. by rewrite IH.
Qed.

(** Assignment to one label leaves every entry under another label where
    it is. *)
Lemma dict_set_lookup_ne {V} (d : dict V) k v (i : nat) k' v' :
  k' ≠ k → d !! i = Some (k', v') → dict_set d k v !! i = Some (k', v').
Proof.
  intros Hne. revert i. induction d as [|[k0 v0] d IH]; intros i; simpl.
  - done.
  - destruct (String.eqb_spec k0 k) as [->|Hk].
    + destruct i; simpl; [intros [= <- <-]; done | done].
    + destruct i; simpl; [done | apply IH].
Qed.

(** ** The registry *)

Lemma registry_lookup (C : variant) :
  dict_get CONFIGS_MAPPING (registry_tag C) = Some C.
Proof. destruct C; vm_compute; reflexivity. Qed.

Lemma registry_keys : keys CONFIGS_MAPPING = map registry_tag __subclasses__.
Proof. vm_compute. reflexivity. Qed.

Lemma registry_lookup_inv (t : string) (C : variant) :
  dict_get CONFIGS_MAPPING t = Some C → t = registry_tag C.
Proof.
  intros H. apply dict_get_Some_In in H.
  apply list_elem_of_In in H. vm_compute in H.
  repeat (destruct H as [[= <- <-] | H]; [reflexivity |]). destruct H.
Qed.

(** For every variant but the rollup one, the name of the declared field is
    the registry tag. *)
Lemma own_field_is_registry_tag (C : variant) :
  C ≠ RollupConfig → fst (own_field C) = registry_tag C.
Proof. destruct C; intros H; try reflexivity. done. Qed.

Lemma structural_own_field (C : variant) :
  C ∈ structural_only → own_field C = (registry_tag C, Dict_empty).
Proof.
  intros H. apply list_elem_of_In in H. simpl in H.
  repeat (destruct H as [<- | H]; [reflexivity |]). destruct H.
Qed.

(** ** Construction of a configuration *)

Ltac destruct_checked :=
  repeat match goal with
         | |- context [match ?r with Valid _ => _ | Invalid _ => _ end] =>
             destruct r eqn:?
         end.

Lemma instantiate_cls (C : variant) kwargs c :
  instantiate C kwargs = Ok c → cls c = C.
Proof.
  unfold instantiate. destruct (own_field C) as [field ann].
  destruct_checked; intros [= <-]; reflexivity.
Qed.

(** The validator of [type] is not run when the call leaves [type] out:
    the field keeps its default. *)
Lemma instantiate_type_omitted (C : variant) kwargs c :
  dict_get kwargs "type" = None → instantiate C kwargs = Ok c → type c = None.
Proof.
  unfold instantiate. destruct (own_field C) as [field ann]. intros ->.
  destruct_checked; intros [= <-]; reflexivity.
Qed.

(** A supplied [type], [None] included, ends up as the name of the declared
    field. *)
Lemma instantiate_type_supplied (C : variant) kwargs a c :
  dict_get kwargs "type" = Some a → instantiate C kwargs = Ok c →
  type c = Some (fst (own_field C)).
Proof.
  unfold instantiate. destruct (own_field C) as [field ann] eqn:E. intros ->.
  destruct (validate_optional_str a) as [v|e]; simpl.
  - unfold automatically_set_type_value, __fields__. rewrite E. simpl.
    destruct v as [v|]; simpl.
    + destruct (String.eqb field v); simpl;
        destruct_checked; intros [= <-]; reflexivity.
    + destruct_checked; intros [= <-]; reflexivity.
  - destruct_checked; intros [=].
Qed.

(** An explicit tag other than the name of the declared field is refused. *)
Lemma instantiate_type_mismatch (C : variant) kwargs t :
  dict_get kwargs "type" = Some (Raw (PStr t)) → t ≠ fst (own_field C) →
  ∃ errs, instantiate C kwargs = Raise (ValidationError errs) ∧
          ("type", AssertionError_ (fst (own_field C) ++ " != " ++ t)) ∈ errs.
Proof.
  unfold instantiate. destruct (own_field C) as [field ann] eqn:E.
  intros -> Hne. simpl in *.
  unfold automatically_set_type_value, __fields__. rewrite E. simpl.
  destruct (String.eqb_spec field t) as [->|_]; [done|]. simpl.
  destruct_checked; eexists; (split; [reflexivity|]); simpl;
    rewrite ?elem_of_cons; auto.
Qed.

(** C1.  The code does not do what the claim says.  A configuration built
    without an explicit [type] keeps [type = None]: the validator that
    derives the tag is declared without [always=True], so it is not run on
    the default.  Passing [None] explicitly does derive the tag.  For the
    rollup variant the derived tag is the field name [roll_up], not the
    registry tag [rollup]: the registry tag itself is refused as a
    mismatch. *)
Theorem C1_omitted_type_stays_unset :
  Forall (fun C => instantiate C [] = Ok (bare C (OwnDict []))) structural_only
  ∧ instantiate TitleConfig [("type", Raw PNone)]
    = Ok {| cls := TitleConfig; id := None; type := Some "title";
            own := OwnDict [] |}
  ∧ registry_tag RollupConfig = "rollup"
  ∧ (∀ x, instantiate RollupConfig
            [("type", Raw (PStr "rollup"));
             ("roll_up", Instance_ (IRollUpProperty x))]
          = Raise (ValidationError
                     [("type", AssertionError_ "roll_up != rollup")]))
  ∧ (∀ x, instantiate RollupConfig
            [("type", Raw (PStr "roll_up"));
             ("roll_up", Instance_ (IRollUpProperty x))]
          = Ok {| cls := RollupConfig; id := None; type := Some "roll_up";
                  own := OwnRollUp x |}).
Proof.
  split; [|split; [|split; [|split]]].
  - repeat constructor.
  - reflexivity.
  - reflexivity.
  - intros x. reflexivity.
  - intros x. reflexivity.
Qed.

(** ** Parsing a raw payload *)

Lemma pydict_set_nonempty (d : pydict) k v : pydict_set d k v ≠ [].
Proof. destruct d as [|[k' v'] d]; simpl; [done|]. by destruct (key_eqb k' k). Qed.

Lemma dict_of_sequence_nonempty (l : list pyval) (acc d : pydict) :
  dict_of_sequence l acc = Some d → acc ≠ [] → d ≠ [].
Proof.
  revert acc. induction l as [|v l IH]; intros acc; simpl.
  - by intros [= ->].
  - destruct (as_item v) as [[k x]|]; [|done].
    destruct (hashable k); [|done].
    intros H _. eapply IH; [exact H | apply pydict_set_nonempty].
Qed.

(** A supplied value that Python takes as true is never an acceptable
    content of a [Dict = {}] field. *)
Lemma validate_Dict_empty_truthy (field : string) (x : pyval) :
  py_truthy x = true → ∃ e, validate_Dict_empty field (Raw x) = Invalid e.
Proof.
  destruct x as [|b|n|s|l|d|]; simpl; try done; intros H; eauto.
  - destruct s; [done | simpl; eauto].
  - destruct l as [|v l]; [done|]. simpl.
    destruct (as_item v) as [[k x]|]; [|simpl; eauto].
    destruct (hashable k); [|simpl; eauto].
    destruct (dict_of_sequence l _) as [d|] eqn:E; [|simpl; eauto].
    simpl. apply dict_of_sequence_nonempty in E; [|done].
    destruct d; [done | simpl; eauto].
  - destruct d; [done | simpl; eauto].
Qed.

Lemma acceptable_id_valid (data : dict pyval) :
  acceptable_id data →
  ∃ i, match dict_get data "id" with
       | None => Valid None
       | Some v => validate_optional_str (Raw v)
       end = Valid i.
Proof.
  unfold acceptable_id.
  destruct (dict_get data "id") as [[]|]; simpl; intros H; try done; eauto.
Qed.

(** C2.  For a structural-only variant, a payload tagged with the
    variant's registry tag is refused with a validation error on the
    namesake field whenever that field holds a non-empty value, and is
    accepted when the field holds the empty dictionary; the configuration
    then built is of the variant and its [type] is the registry tag. *)
Theorem C2_structural_only_payload (C : variant) (data : dict pyval) :
  C ∈ structural_only →
  dict_get data "type" = Some (PStr (registry_tag C)) →
  (∀ x, dict_get data (registry_tag C) = Some x → py_truthy x = true →
        ∃ errs e, parse_single_config data = Raise (ValidationError errs) ∧
                  (registry_tag C, e) ∈ errs)
  ∧ (dict_get data (registry_tag C) = Some (PDict []) → acceptable_id data →
     ∃ c, parse_single_config data = Ok c ∧ cls c = C ∧
          type c = Some (registry_tag C) ∧ own c = OwnDict []).
Proof.
  intros HC Hty. pose proof (structural_own_field C HC) as Hown.
  unfold parse_single_config. rewrite Hty, registry_lookup.
  unfold instantiate. rewrite Hown.
  rewrite !(dict_get_map Raw), Hty. simpl.
  unfold automatically_set_type_value, __fields__. rewrite Hown. simpl.
  rewrite String.eqb_refl. simpl.
  generalize (registry_tag C). intros tag. split.
  - intros x -> Hx. change (Raw <$> Some x) with (Some (Raw x)).
    destruct (validate_Dict_empty_truthy tag x Hx) as [e ->].
    destruct (dict_get data "id") as [v|]; cbn [fmap option_fmap option_map];
      [destruct (validate_optional_str (Raw v))|];
      do 2 eexists; (split; [reflexivity|]); simpl; rewrite ?elem_of_cons; auto.
  - intros -> Hid.
    destruct (acceptable_id_valid data Hid) as [i Hi].
    destruct (dict_get data "id") as [v|]; cbn [fmap option_fmap option_map].
    + rewrite Hi. simpl. eauto.
    + simpl. eauto.
Qed.

Lemma C2_structural_only_payload_witness :
  (∃ errs e,
      parse_single_config [("type", PStr "title");
                           ("title", PDict [("color", PStr "red")])]
      = Raise (ValidationError errs) ∧ ("title", e) ∈ errs)
  ∧ (∃ c, parse_single_config [("type", PStr "title"); ("title", PDict [])]
          = Ok c ∧ cls c = TitleConfig ∧ type c = Some "title" ∧
          own c = OwnDict []).
Proof.
  split.
  - apply (proj1 (C2_structural_only_payload TitleConfig
                    [("type", PStr "title");
                     ("title", PDict [("color", PStr "red")])]
                    ltac:(left) ltac:(reflexivity))
             (PDict [("color", PStr "red")]));
      reflexivity.
  - apply (proj2 (C2_structural_only_payload TitleConfig
                    [("type", PStr "title"); ("title", PDict [])]
                    ltac:(left) ltac:(reflexivity)));
      [reflexivity | exact I].
Defined.

(** An unknown tag is a [KeyError] of the registry. *)
Lemma parse_unknown_tag (data : dict pyval) (t : string) :
  dict_get data "type" = Some (PStr t) →
  dict_get CONFIGS_MAPPING t = None →
  parse_single_config data = Raise (KeyError (PStr t)).
Proof. unfold parse_single_config. by intros -> ->. Qed.

(** The parser never returns a rollup configuration: the registry files
    the variant under ["rollup"], which its own validator refuses. *)
Lemma parse_never_rollup (data : dict pyval) c :
  parse_single_config data = Ok c → cls c ≠ RollupConfig.
Proof.
  unfold parse_single_config.
  destruct (dict_get data "type") as [[| | |t| | |]|] eqn:Hty; try done.
  destruct (dict_get CONFIGS_MAPPING t) as [C|] eqn:HC; [|done].
  intros H Hcls. pose proof (instantiate_cls _ _ _ H) as HC'.
  rewrite Hcls in HC'. subst C.
  apply registry_lookup_inv in HC. subst t.
  destruct (instantiate_type_mismatch RollupConfig
              (map (fun kv => (fst kv, Raw (snd kv))) data) "rollup")
    as (errs & Herr & _).
  - by rewrite (dict_get_map Raw), Hty.
  - done.
  - congruence.
Qed.

(** ** from_raw *)

Lemma parse_items_raises items acc :
  Exists (fun kv => raises (parse_single_config (snd kv))) items →
  raises (parse_items items acc).
Proof.
  revert acc. induction items as [|[key config] items IH]; intros acc H.
  - by apply Exists_nil in H.
  - simpl. destruct (parse_single_config config) as [c|e] eqn:E.
    + apply Exists_cons in H as [[e He]|H]; simpl in *; [congruence|].
      apply IH, H.
    + by exists e.
Qed.

Lemma parse_items_ok items acc :
  Forall (fun kv => ∃ c, parse_single_config (snd kv) = Ok c) items →
  NoDup (keys items) → (∀ k, k ∈ keys items → k ∉ keys acc) →
  ∃ out, parse_items items acc = Ok (acc ++ out) ∧ Forall2 parsed_as items out.
Proof.
  revert acc. induction items as [|[key config] items IH]; intros acc Hall Hnd Hfresh.
  - exists []. simpl. by rewrite app_nil_r.
  - apply Forall_cons in Hall as [[c Hc] Hall]. simpl in Hc.
    unfold keys in Hnd. simpl in Hnd. apply NoDup_cons in Hnd as [Hkey Hnd].
    simpl. rewrite Hc. simpl.
    rewrite dict_set_fresh by (apply Hfresh; left).
    destruct (IH (acc ++ [(key, Some c)]) Hall Hnd) as (out & -> & Hout).
    + intros k Hk. unfold keys. rewrite map_app. simpl.
      rewrite elem_of_app, list_elem_of_singleton.
      intros [Hin | ->]; [|done].
      eapply Hfresh; [right; exact Hk | exact Hin].
    + exists ((key, Some c) :: out). rewrite <- app_assoc. split; [done|].
      constructor; [|done]. split; [done|]. exists c. done.
Qed.

(** C3.  [from_raw] is all or nothing.  On a mapping one of whose entries
    the parser refuses (an unknown tag, a failed validation), the call
    raises and no schema is returned; on a mapping all of whose entries
    parse, it returns a schema whose keys are those of the input, in the
    order of the input, each bound to the parse of its payload. *)
Theorem C3_from_raw_atomic (raw : dict (dict pyval)) :
  NoDup (keys raw) →
  (Exists (fun kv => raises (parse_single_config (snd kv))) raw →
   raises (from_raw raw))
  ∧ (Forall (fun kv => ∃ c, parse_single_config (snd kv) = Ok c) raw →
     ∃ schema, from_raw raw = Ok schema ∧
               keys (configs schema) = keys raw ∧
               Forall2 parsed_as raw (configs schema)).
Proof.
  intros Hnd. unfold from_raw. split.
  - intros H. destruct (parse_items_raises raw [] H) as [e ->]. by exists e.
  - intros H.
    destruct (parse_items_ok raw [] H Hnd) as (out & -> & Hout).
    { intros k _. apply not_elem_of_nil. }
    simpl. eexists. split; [reflexivity|]. simpl. split; [|done].
    clear -Hout. unfold keys.
    induction Hout as [|kv e raw out [Hk _] _ IH]; simpl; [done|].
    by rewrite Hk, IH.
Qed.

Lemma C3_from_raw_atomic_witness :
  raises (from_raw
            [("Name", [("type", PStr "title"); ("title", PDict [])]);
             ("Age", [("type", PStr "number");
                      ("number", PDict [("format", PStr "number")])]);
             ("Tags", [("type", PStr "select"); ("select", PStr "red")])])
  ∧ ∃ schema,
      from_raw
        [("Name", [("type", PStr "title"); ("title", PDict [])]);
         ("Age", [("type", PStr "number");
                  ("number", PDict [("format", PStr "number")])])]
      = Ok schema ∧ keys (configs schema) = ["Name"; "Age"].
Proof.
  split.
  - apply (C3_from_raw_atomic
             [("Name", [("type", PStr "title"); ("title", PDict [])]);
              ("Age", [("type", PStr "number");
                       ("number", PDict [("format", PStr "number")])]);
              ("Tags", [("type", PStr "select"); ("select", PStr "red")])]).
    + refine (bool_decide_unpack _ _). vm_compute. exact I.
    + do 2 apply Exists_cons_tl. apply Exists_cons_hd.
      eexists. vm_compute. reflexivity.
  - destruct (proj2 (C3_from_raw_atomic
             [("Name", [("type", PStr "title"); ("title", PDict [])]);
              ("Age", [("type", PStr "number");
                       ("number", PDict [("format", PStr "number")])])]
             ltac:(refine (bool_decide_unpack _ _); vm_compute; exact I)))
      as (schema & Hs & Hk & _).
    + repeat constructor; eexists; vm_compute; reflexivity.
    + exists schema. split; [exact Hs | exact Hk].
Defined.

(** ** Sets of scalars *)











(** [set(l)] returns exactly when every element of [l] has a hash. *)
Lemma py_set_Ok (l : list scalar) :
  forallb hashable_scalar l = true → py_set l = Ok (fold_left set_add l []).
Proof. intros H. unfold py_set. by rewrite H. Qed.

Lemma py_set_raises (l : list scalar) :
  forallb hashable_scalar l = false →
  py_set l = Raise (TypeError "unhashable type").
Proof. intros H. unfold py_set. by rewrite H. Qed.





(** ** Inference on a column of list-likes *)

Lemma chain_from_iterable_list_like (vs : list value) :
  forallb is_list_like vs = true →
  chain_from_iterable vs = Ok (flat_map row_items vs).
Proof.
  induction vs as [|[x|xs] vs IH]; simpl; [done | done |].
  intros H. by rewrite IH.
Qed.

Lemma options_from_values_strings (l : list string) :
  options_from_values (map PStr l) = Ok (map named l).
Proof. induction l as [|s l IH]; simpl; [done|]. by rewrite IH. Qed.

Lemma elem_of_map {A B} (f : A → B) (l : list A) (y : B) :
  y ∈ map f l ↔ ∃ x, f x = y ∧ x ∈ l.
Proof.
  rewrite list_elem_of_In, in_map_iff.
  by setoid_rewrite list_elem_of_In.
Qed.



(** Lines 251-254 on a column of list-likes: the set of the elements of the
    rows, as strings. *)
Lemma all_possible_values_list_like (column : Series) :
  forallb is_list_like (values column) = true →
  all_possible_values column
  = s ← py_set (elements column); Ok (map py_str s).
Proof.
  intros Hll. unfold all_possible_values.
  by rewrite (chain_from_iterable_list_like _ Hll).
Qed.

(** The whole branch of lines 250-257. *)
Lemma infer_list_like (column : Series) :
  dtype column = object_ →
  forallb is_list_like (values column) = true →
  _infer_series_config column
  = strs ← all_possible_values column; Ok (Some (multi_select_config strs)).
Proof.
  intros Hd Hll. unfold _infer_series_config. rewrite Hd, Hll. simpl.
  destruct (all_possible_values column) as [strs|e]; simpl; [|done].
  unfold SelectOptions_from_value. by rewrite options_from_values_strings.
Qed.





(** ** Inference by dtype *)

(** A boolean column meets the numeric test first. *)
Lemma infer_bool_column (vs : list value) :
  _infer_series_config {| dtype := bool_; values := vs |}
  = Ok (Some number_config).
Proof. reflexivity. Qed.

(** The checkbox branch is reached by no column but a categorical one
    whose categories are booleans. *)
Lemma checkbox_only_from_categories (column : Series) c :
  _infer_series_config column = Ok (Some c) → cls c = CheckboxConfig →
  ∃ cats, dtype column = category cats.
Proof.
  destruct column as [d vs]. destruct d; simpl; eauto;
    unfold _infer_series_config; simpl.
  - destruct (forallb is_list_like vs).
    + destruct (all_possible_values _); simpl; [|done].
      match goal with |- context [SelectOptions_from_value ?l] =>
        destruct (SelectOptions_from_value l) end; simpl; [|done].
      by intros [= <-].
    + by intros [= <-].
  - by intros [= <-].
  - by intros [= <-].
  - by intros [= <-].
  - by intros [= <-].
  - done.
Qed.

(** C6.  The code does not do what the claim says.  Line 266 builds the
    list [[str for cat in dtype.categories]]: the type object [str] once
    per category, not [str(cat)].  The labels never reach the options: a
    categorical column with at least one category either is taken for a
    checkbox (boolean categories) or makes the construction of the options
    fail, and only the empty category list gives a select configuration. *)
Theorem C6_category_labels_are_dropped :
  (∀ cat cats vs,
     _infer_series_config {| dtype := category (cat :: cats); values := vs |}
     = if forallb is_bool_scalar (cat :: cats)
       then Ok (Some (bare CheckboxConfig (OwnDict [])))
       else Raise (ValidationError [("name", StrError)]))
  ∧ (∀ vs,
       _infer_series_config {| dtype := category []; values := vs |}
       = Ok (Some (bare SelectConfig
                     (OwnSelect (Some {| options := Some [] |}))))).
Proof.
  split.
  - intros cat cats vs. unfold _infer_series_config. simpl.
    destruct (is_bool_scalar cat && forallb is_bool_scalar cats); reflexivity.
  - intros vs. reflexivity.
Qed.

(** ** from_df *)

Lemma filter_label_absent (df : DataFrame) (col : string) :
  col ∉ columns df →
  filter (fun c => String.eqb (fst c) col = true)
         (df : list (string * Series)) = [].
Proof.
  unfold columns. induction df as [|[k v] df IH]; [done|].
  cbn [map fst]. rewrite not_elem_of_cons. intros [Hne Hnin].
  rewrite filter_cons. cbn [fst].
  destruct (decide (String.eqb k col = true)) as [Heq|_]; [|by apply IH].
  apply String.eqb_eq in Heq. congruence.
Qed.

(** Under distinct labels, [df[col]] is the series of the column. *)
Lemma getitem_unique (df : DataFrame) (col : string) (s : Series) :
  distinct_labels df → (col, s) ∈ df → getitem df col = Ok (OneSeries s).
Proof.
  unfold distinct_labels, getitem, columns.
  induction df as [|[k v] df IH].
  - intros _ H. by apply elem_of_nil in H.
  - cbn [map fst]. intros [Hk Hnd]%NoDup_cons Hin.
    rewrite filter_cons. cbn [fst].
    destruct (decide (String.eqb k col = true)) as [Heq|Hne].
    + apply String.eqb_eq in Heq as ->.
      rewrite (filter_label_absent df col Hk).
      apply elem_of_cons in Hin as [[= <-] | Hin]; [done|].
      exfalso. apply Hk. change col with (fst (col, s)).
      rewrite elem_of_map. eauto.
    + apply elem_of_cons in Hin as [[= -> ->] | Hin].
      * by rewrite String.eqb_refl in Hne.
      * specialize (IH Hnd Hin).
        destruct (filter _ df) as [|c [|c' l]]; [done | | done].
        done.
Qed.

Lemma infer_columns_ok (df rest : DataFrame) acc outs :
  distinct_labels df → (∀ c, c ∈ rest → c ∈ df) →
  NoDup (columns rest) → (∀ k, k ∈ columns rest → k ∉ keys acc) →
  Forall2 inferred_as rest outs →
  infer_columns df (columns rest) acc = Ok (acc ++ outs).
Proof.
  intros Hdf. revert acc outs.
  induction rest as [|[col s] rest IH]; intros acc outs Hsub Hnd Hfresh Hout.
  - apply Forall2_nil_inv_l in Hout as ->. simpl. by rewrite app_nil_r.
  - apply Forall2_cons_inv_l in Hout as ([k e] & outs' & [Hk He] & Hout & ->).
    simpl in *. subst k. apply NoDup_cons in Hnd as [Hcol Hnd].
    rewrite (getitem_unique df col s Hdf) by (apply Hsub; left).
    simpl. rewrite He. simpl.
    rewrite dict_set_fresh by (apply Hfresh; left).
    rewrite (IH (acc ++ [(col, e)]) outs'); try done.
    + by rewrite <- app_assoc.
    + intros c Hc. apply Hsub. by right.
    + intros k Hk. unfold keys. rewrite map_app. simpl.
      rewrite elem_of_app, list_elem_of_singleton.
      intros [Hin | ->]; [|done].
      eapply Hfresh; [right; exact Hk | exact Hin].
Qed.

Lemma columns_infer_objects (df : DataFrame) :
  columns (infer_objects df) = columns df.
Proof.
  unfold columns, infer_objects. rewrite map_map. simpl. done.
Qed.

Lemma distinct_labels_infer_objects (df : DataFrame) :
  distinct_labels df → distinct_labels (infer_objects df).
Proof. unfold distinct_labels. by rewrite columns_infer_objects. Qed.

Lemma inferred_as_keys (df : DataFrame) outs :
  Forall2 inferred_as df outs → keys outs = columns df.
Proof.
  unfold keys, columns.
  induction 1 as [|c e df outs [Hk _] _ IH]; simpl; [done|].
  by rewrite Hk, IH.
Qed.

(** [from_df], once the inference of every column has returned. *)
Lemma from_df_inferred (df : DataFrame) outs (title_col : option string) :
  distinct_labels df → Forall2 inferred_as (infer_objects df) outs →
  from_df df title_col
  = match title_col with
    | Some t => Ok {| configs := dict_set outs t (Some title_config) |}
    | None =>
        match columns df with
        | [] => Raise (IndexError "index 0 is out of bounds")
        | first :: _ =>
            Ok {| configs := dict_set outs first (Some title_config) |}
        end
    end.
Proof.
  intros Hdf Hout. unfold from_df.
  rewrite (infer_columns_ok (infer_objects df) (infer_objects df) [] outs);
    try done.
  - simpl. by rewrite columns_infer_objects.
  - by apply distinct_labels_infer_objects.
  - by apply distinct_labels_infer_objects.
  - intros k _. apply not_elem_of_nil.
Qed.

(** Inference raises on no column but a categorical one and one that
    holds an object without a hash. *)
Lemma infer_noncategorical (s : Series) :
  is_categorical_dtype (dtype s) = false →
  forallb hashable_scalar (elements s) = true →
  ∃ r, _infer_series_config s = Ok r.
Proof.
  destruct s as [d vs]. intros Hc Hh.
  destruct (is_object_dtype d) eqn:Hd.
  - destruct d; try done.
    destruct (forallb is_list_like vs) eqn:Hll.
    + rewrite (infer_list_like {| dtype := object_; values := vs |}
                 eq_refl Hll).
      rewrite (all_possible_values_list_like
                 {| dtype := object_; values := vs |} Hll), (py_set_Ok _ Hh).
      simpl. eauto.
    + unfold _infer_series_config. simpl. rewrite Hll. simpl. eauto.
  - unfold _infer_series_config. destruct d; simpl in *; try done; eauto.
Qed.

(** So inference returns on every column of such a frame, after
    [infer_objects]. *)
Lemma infer_objects_noncategorical (df : DataFrame) :
  Forall (fun c => is_categorical_dtype (dtype (snd c)) = false) df →
  Forall (fun c => forallb hashable_scalar (elements (snd c)) = true) df →
  ∃ outs, Forall2 inferred_as (infer_objects df) outs.
Proof.
  induction 1 as [|[k [d vs]] df Hc _ IH]; simpl.
  - exists []. constructor.
  - intros [Hh [outs Houts]%IH]%Forall_cons. simpl in Hc, Hh.
    edestruct (infer_noncategorical
                 (if is_object_dtype d
                  then {| dtype := infer_dtype vs; values := vs |}
                  else {| dtype := d; values := vs |})) as [r Hr].
    { destruct d; simpl in *; try done.
      unfold infer_dtype. destruct vs; [done|].
      repeat match goal with |- context [if ?b then _ else _] => destruct b end;
        done. }
    { by destruct (is_object_dtype d). }
    exists ((k, r) :: outs). constructor; [|done]. split; done.
Qed.

Lemma infer_dtype_strings (texts : list string) :
  infer_dtype (map (fun s => Scalar (SStr s)) texts) = object_.
Proof. by destruct texts. Qed.

(** C4.  The code does not do what the claim says.  For a frame whose
    columns are, in order, a column of strings, an integer column, a
    boolean column and a datetime column, [from_df] without a title column
    maps the first to title, the second to number and the last to date, but
    the boolean column to number, not to checkbox: [is_numeric_dtype] holds
    of the boolean dtype and is tested before [is_bool_dtype]. *)
Theorem C4_boolean_column_inferred_number
    (n1 n2 n3 n4 : string) (texts : list string) (v2 v3 v4 : list value) :
  NoDup [n1; n2; n3; n4] →
  from_df [ (n1, {| dtype := object_;
                    values := map (fun s => Scalar (SStr s)) texts |});
            (n2, {| dtype := int64; values := v2 |});
            (n3, {| dtype := bool_; values := v3 |});
            (n4, {| dtype := datetime64; values := v4 |}) ] None
  = Ok {| configs :=
            [ (n1, Some title_config);
              (n2, Some number_config);
              (n3, Some number_config);
              (n4, Some (bare DateConfig (OwnDict []))) ] |}.
Proof.
  intros Hnd.
  destruct (infer_noncategorical
              {| dtype := object_;
                 values := map (fun s => Scalar (SStr s)) texts |}
              eq_refl) as [r Hr].
  { unfold elements. simpl. by induction texts. }
  erewrite from_df_inferred with
    (outs := [ (n1, r); (n2, Some number_config); (n3, Some number_config);
               (n4, Some (bare DateConfig (OwnDict []))) ]).
  - simpl. by rewrite String.eqb_refl.
  - exact Hnd.
  - simpl. rewrite infer_dtype_strings.
    repeat constructor; simpl; done.
Qed.

Lemma C4_boolean_column_inferred_number_witness :
  from_df [ ("name", {| dtype := object_;
                        values := map (fun s => Scalar (SStr s))
                                      ["ann"; "bob"] |});
            ("age", {| dtype := int64;
                       values := [Scalar (SInt 31); Scalar (SInt 27)] |});
            ("active", {| dtype := bool_;
                          values := [Scalar (SBool true);
                                     Scalar (SBool false)] |});
            ("joined", {| dtype := datetime64;
                          values := [Scalar (STime "2021-03-01 00:00:00");
                                     Scalar (STime "2022-07-15 00:00:00")] |}) ]
          None
  = Ok {| configs :=
            [ ("name", Some title_config);
              ("age", Some number_config);
              ("active", Some number_config);
              ("joined", Some (bare DateConfig (OwnDict []))) ] |}.
Proof.
  apply (C4_boolean_column_inferred_number "name" "age" "active" "joined").
  refine (bool_decide_unpack _ _). vm_compute. exact I.
Defined.

(** C10, as the code has it.  For a frame with pairwise distinct labels,
    no categorical column and no list-like cell that holds an object
    without a hash, and a title column that is not a label of the frame,
    [from_df] returns a schema that holds the inferred entry of every
    column, in the order of the columns, followed by one more entry that
    binds the title column to the title variant. *)
Theorem C10_absent_title_column_is_appended
    (df : DataFrame) (title_col : string) :
  distinct_labels df →
  Forall (fun c => is_categorical_dtype (dtype (snd c)) = false) df →
  Forall (fun c => forallb hashable_scalar (elements (snd c)) = true) df →
  title_col ∉ columns df →
  ∃ schema inferred,
    from_df df (Some title_col) = Ok schema ∧
    Forall2 inferred_as (infer_objects df) inferred ∧
    configs schema = inferred ++ [(title_col, Some title_config)] ∧
    keys (configs schema) = columns df ++ [title_col] ∧
    List.length (configs schema) = S (List.length df).
Proof.
  intros Hdf Hcat Hhash Hnew.
  destruct (infer_objects_noncategorical df Hcat Hhash) as [outs Hout].
  pose proof (inferred_as_keys _ _ Hout) as Hkeys.
  rewrite columns_infer_objects in Hkeys.
  exists {| configs := outs ++ [(title_col, Some title_config)] |}, outs.
  rewrite (from_df_inferred df outs (Some title_col) Hdf Hout).
  rewrite dict_set_fresh by (by rewrite Hkeys). simpl.
  split; [done|]. split; [done|]. split; [done|]. split.
  - unfold keys in *. rewrite map_app, Hkeys. done.
  - rewrite length_app. simpl.
    apply Forall2_length in Hout. unfold infer_objects in Hout.
    rewrite length_map in Hout. lia.
Qed.

Lemma C10_absent_title_column_is_appended_witness :
  ∃ schema inferred,
    from_df [ ("city", {| dtype := object_;
                          values := [Scalar (SStr "Oslo")] |});
              ("tags", {| dtype := object_;
                          values := [ListLike [SStr "port"; SInt 1]] |});
              ("rank", {| dtype := int64; values := [Scalar (SInt 1)] |}) ]
            (Some "Name") = Ok schema ∧
    Forall2 inferred_as
      (infer_objects
         [ ("city", {| dtype := object_; values := [Scalar (SStr "Oslo")] |});
           ("tags", {| dtype := object_;
                       values := [ListLike [SStr "port"; SInt 1]] |});
           ("rank", {| dtype := int64; values := [Scalar (SInt 1)] |}) ])
      inferred ∧
    configs schema = inferred ++ [("Name", Some title_config)] ∧
    keys (configs schema) = ["city"; "tags"; "rank"; "Name"] ∧
    List.length (configs schema) = 4.
Proof.
  apply (C10_absent_title_column_is_appended
           [ ("city", {| dtype := object_; values := [Scalar (SStr "Oslo")] |});
             ("tags", {| dtype := object_;
                         values := [ListLike [SStr "port"; SInt 1]] |});
             ("rank", {| dtype := int64; values := [Scalar (SInt 1)] |}) ]
           "Name").
  - refine (bool_decide_unpack _ _). vm_compute. exact I.
  - repeat constructor.
  - repeat constructor.
  - refine (bool_decide_unpack _ _). vm_compute. exact I.
Defined.

(** C10, as the claim has it, fails.  A frame with a repeated label makes
    [df[col]] a frame, and [from_df] raises on its [dtype]; a frame with a
    categorical column fails through line 266; a frame with a column of
    list-likes one of which holds a list fails through the [set] of line
    251. *)
Lemma C10_counterexample :
  ¬ (∀ (df : DataFrame) (title_col : string),
       title_col ∉ columns df →
       ∃ schema, from_df df (Some title_col) = Ok schema ∧
                 List.length (configs schema) = S (List.length df))
  ∧ from_df [ ("x", {| dtype := int64; values := [Scalar (SInt 1)] |});
              ("x", {| dtype := int64; values := [Scalar (SInt 2)] |}) ]
            (Some "Name")
    = Raise (AttributeError "'DataFrame' object has no attribute 'dtype'")
  ∧ from_df [ ("size", {| dtype := category [SStr "S"; SStr "M"];
                          values := [Scalar (SStr "S")] |}) ]
            (Some "Name")
    = Raise (ValidationError [("name", StrError)])
  ∧ from_df [ ("tags", {| dtype := object_;
                          values := [ListLike [SStr "a"];
                                     ListLike [SUnhashable "['b', 'c']"]] |}) ]
            (Some "Name")
    = Raise (TypeError "unhashable type").
Proof.
  split; [|split; [|split]; reflexivity].
  intros H.
  destruct (H [ ("x", {| dtype := int64; values := [Scalar (SInt 1)] |});
                ("x", {| dtype := int64; values := [Scalar (SInt 2)] |}) ]
              "Name") as (schema & Hs & _).
  - refine (bool_decide_unpack _ _). vm_compute. exact I.
  - discriminate Hs.
Qed.

(** ** The sanitisation table *)

Section Table.

Context {U : Utils}.

(** Every registry tag has an entry in the table. *)
Lemma table_covers_registry (C : variant) :
  is_Some (dict_get CONFIGS_DF_TRANSFORMER (registry_tag C)).
Proof. destruct C; eexists; reflexivity. Qed.

Lemma table_roll_up : dict_get CONFIGS_DF_TRANSFORMER "roll_up" = None.
Proof. reflexivity. Qed.

Lemma table_number : dict_get CONFIGS_DF_TRANSFORMER "number" = Some None.
Proof. reflexivity. Qed.

(** The entries of the table, by tag. *)
Lemma table_entry (tag : string) (f : sanitizer) :
  dict_get CONFIGS_DF_TRANSFORMER tag = Some (Some f) →
  (tag = "multi_select" ∧ f = multi_select_transform)
  ∨ (tag ≠ "multi_select" ∧
     (f = SECURE_STR_TRANSFORM ∨ f = SECURE_BOOL_TRANSFORM ∨
      f = SECURE_TIME_TRANSFORM)).
Proof.
  change CONFIGS_DF_TRANSFORMER with
    [ ("title", Some SECURE_STR_TRANSFORM);
      ("rich_text", Some SECURE_STR_TRANSFORM);
      ("number", None);
      ("select", Some SECURE_STR_TRANSFORM);
      ("multi_select", Some multi_select_transform);
      ("date", Some SECURE_TIME_TRANSFORM);
      ("checkbox", Some SECURE_BOOL_TRANSFORM);
      ("people", Some SECURE_STR_TRANSFORM);
      ("files", Some SECURE_STR_TRANSFORM);
      ("url", Some SECURE_STR_TRANSFORM);
      ("email", Some SECURE_STR_TRANSFORM);
      ("phone_number", Some SECURE_STR_TRANSFORM);
      ("formula", Some SECURE_STR_TRANSFORM);
      ("relation", Some SECURE_STR_TRANSFORM);
      ("rollup", Some SECURE_STR_TRANSFORM);
      ("created_time", Some SECURE_STR_TRANSFORM);
      ("created_by", Some SECURE_STR_TRANSFORM);
      ("last_edited_time", Some SECURE_STR_TRANSFORM);
      ("last_edited_by", Some SECURE_STR_TRANSFORM) ].
  cbn [dict_get].
  repeat match goal with
         | |- context [String.eqb ?k tag] =>
             destruct (String.eqb_spec k tag) as [<-|?]
         end;
    intros [=]; subst; (left; done) || (right; split; [done | auto]).
Qed.

(** C8, as the code has it.  A sanitiser of the table is either the one
    of [multi_select], defined at line 227, or one of the three imported
    from [notion_df.utils].  The former returns on every cell, the missing
    value included, but does not keep the missing value: it is not
    list-like, and comes back as the string ["None"].  What the latter do
    is decided in [notion_df.utils]. *)
Theorem C8_sanitizers_on_missing (tag : string) (f : sanitizer) :
  dict_get CONFIGS_DF_TRANSFORMER tag = Some (Some f) →
  (tag = "multi_select" ∧
   (∀ v, ∃ v', f v = Ok v') ∧
   f missing = Ok (Scalar (SStr "None")) ∧
   f missing ≠ Ok missing)
  ∨ (tag ≠ "multi_select" ∧
     (f = SECURE_STR_TRANSFORM ∨ f = SECURE_BOOL_TRANSFORM ∨
      f = SECURE_TIME_TRANSFORM)).
Proof.
  intros Hf.
  destruct (table_entry tag f Hf) as [[Htag Hmulti] | [Hne Hcases]].
  - left. subst tag f. split; [done|]. split; [|split].
    + intros [x|xs]; eexists; reflexivity.
    + reflexivity.
    + discriminate.
  - right. by split.
Qed.

End Table.

Lemma C8_sanitizers_on_missing_witness :
  ("multi_select" = "multi_select" ∧
   (∀ v, ∃ v', multi_select_transform v = Ok v') ∧
   multi_select_transform missing = Ok (Scalar (SStr "None")) ∧
   multi_select_transform missing ≠ Ok missing)
  ∨ ("multi_select" ≠ "multi_select" ∧
     (multi_select_transform = reference_str ∨
      multi_select_transform = reference_bool ∨
      multi_select_transform = reference_time)).
Proof.
  apply (C8_sanitizers_on_missing (U := reference_utils)
           "multi_select" multi_select_transform).
  reflexivity.
Defined.

(** C8, as the claim has it, fails whatever the imported transforms are:
    the table binds [multi_select] to the sanitiser of line 227, which
    turns the missing value into the string ["None"]. *)
Lemma C8_counterexample :
  ¬ (∃ U : Utils,
       ∀ tag f, dict_get CONFIGS_DF_TRANSFORMER tag = Some (Some f) →
                f missing = Ok missing)
  ∧ dict_get (CONFIGS_DF_TRANSFORMER (U := reference_utils)) "multi_select"
    = Some (Some multi_select_transform)
  ∧ multi_select_transform (Scalar SNone) = Ok (Scalar (SStr "None")).
Proof.
  split; [|split; reflexivity].
  intros [U H].
  specialize (H "multi_select" multi_select_transform eq_refl).
  discriminate H.
Qed.

(** ** transform *)

Lemma stateful_bind_eq {A B} (m : stateful A) (k : A → stateful B) σ :
  (m ≫= k) σ = match m σ with
               | (Ok a, σ') => k a σ'
               | (Raise e, σ') => (Raise e, σ')
               end.
Proof. reflexivity. Qed.

Lemma read_eq (df : loc) (σ : store) d :
  σ !! df = Some d → read df σ = (Ok d, σ).
Proof. unfold read. by intros ->. Qed.

Lemma getitem_Ok_label (d : DataFrame) (col : string) sel :
  getitem d col = Ok sel → col ∈ columns d.
Proof.
  unfold getitem.
  destruct (filter _ _) as [|c l] eqn:E; [done|]. intros _.
  assert (c ∈ filter (fun c => String.eqb (fst c) col = true)
                (d : list (string * Series))) as Hc by (rewrite E; left).
  apply list_elem_of_filter in Hc as [Heq Hc].
  apply String.eqb_eq in Heq as <-.
  unfold columns. rewrite elem_of_map. eauto.
Qed.

Section TransformProperties.

Context {U : Utils}.

(** The tag of a rollup configuration, [None] or ["roll_up"], has no entry
    in the table. *)
Lemma rollup_type (kwargs : dict argument) c :
  instantiate RollupConfig kwargs = Ok c →
  type c = None ∨ type c = Some "roll_up".
Proof.
  intros H. destruct (dict_get kwargs "type") as [a|] eqn:E.
  - right. apply (instantiate_type_supplied _ _ _ _ E H).
  - left. apply (instantiate_type_omitted _ _ _ E H).
Qed.

Lemma resolve_rollup (self : DatabaseSchema) (col : string) kwargs c :
  instantiate RollupConfig kwargs = Ok c →
  dict_get (configs self) col = Some (Some c) →
  resolve self col = Raise (KeyError PNone)
  ∨ resolve self col = Raise (KeyError (PStr "roll_up")).
Proof.
  intros Hc Hcol. unfold resolve, __getitem__. rewrite Hcol. simpl.
  destruct (rollup_type kwargs c Hc) as [-> | ->]; [by left | by right].
Qed.

(** The loop raises when the tag of one of the columns does not resolve. *)
Lemma transform_columns_raises (self : DatabaseSchema) (df : loc)
    (cols : list string) (col : string) e σ :
  resolve self col = Raise e → col ∈ cols →
  ∃ e', fst (transform_columns self df cols σ) = Raise e'.
Proof.
  intros Hres. revert σ.
  induction cols as [|c cols IH]; intros σ Hin.
  - by apply elem_of_nil in Hin.
  - cbn [transform_columns]. rewrite stateful_bind_eq.
    destruct (transform_column self df c σ) as [[[]|e1] σ1] eqn:E1.
    + destruct (decide (col = c)) as [->|Hne].
      * unfold transform_column in E1. rewrite stateful_bind_eq in E1.
        unfold lift in E1. rewrite Hres in E1. discriminate E1.
      * apply IH. apply elem_of_cons in Hin as [?|?]; done.
    + by exists e1.
Qed.

(** C7.  The code does not do what the claim says.  A rollup configuration
    carries the tag [None] or ["roll_up"], the name of its field, and the
    table files the string sanitiser under ["rollup"]: the lookup of line
    328 raises [KeyError], and so does [transform] on every frame that has
    a column the schema maps to a rollup configuration. *)
Theorem C7_rollup_column_raises (self : DatabaseSchema) (col : string)
    (kwargs : dict argument) (c : PropertyConfig)
    (df : loc) (d : DataFrame) (σ : store) :
  instantiate RollupConfig kwargs = Ok c →
  dict_get (configs self) col = Some (Some c) →
  σ !! df = Some d → col ∈ columns d →
  (resolve self col = Raise (KeyError PNone)
   ∨ resolve self col = Raise (KeyError (PStr "roll_up")))
  ∧ ∃ e, fst (transform self df σ) = Raise e.
Proof.
  intros Hc Hcol Hdf Hin.
  pose proof (resolve_rollup self col kwargs c Hc Hcol) as Hres.
  split; [exact Hres|].
  assert (∃ e, resolve self col = Raise e) as [e He]
    by (destruct Hres; eauto).
  unfold transform, copy. rewrite !stateful_bind_eq.
  rewrite (read_eq df σ d Hdf). unfold alloc at 1.
  rewrite stateful_bind_eq.
  rewrite (read_eq _ _ d) by apply lookup_insert_eq.
  rewrite stateful_bind_eq.
  destruct (transform_columns_raises self (fresh (dom σ)) (columns d) col e
              (<[fresh (dom σ) := d]> σ) He Hin) as [e' He'].
  destruct (transform_columns _ _ _ _) as [[[]|e1] σ1]; simpl in *;
    [discriminate | eauto].
Qed.

Lemma frame_step_refl (self : DatabaseSchema) d : frame_step self d d.
Proof. split; auto. Qed.

Lemma frame_step_trans (self : DatabaseSchema) d1 d2 d3 :
  frame_step self d1 d2 → frame_step self d2 d3 → frame_step self d1 d3.
Proof.
  intros [Hc1 H1] [Hc2 H2]. split; [congruence|].
  intros i k v Hi Hk. eapply H2; [|done]. eapply H1; done.
Qed.

Lemma store_step_refl (self : DatabaseSchema) l σ : store_step self l σ σ.
Proof. split; [done|]. intros d Hd. exists d. auto using frame_step_refl. Qed.

Lemma store_step_trans (self : DatabaseSchema) l σ1 σ2 σ3 :
  store_step self l σ1 σ2 → store_step self l σ2 σ3 → store_step self l σ1 σ3.
Proof.
  intros [Ho1 Hl1] [Ho2 Hl2]. split.
  - intros l' Hl'. by rewrite Ho2, Ho1.
  - intros d1 Hd1. destruct (Hl1 d1 Hd1) as (d2 & Hd2 & Hs12).
    destruct (Hl2 d2 Hd2) as (d3 & Hd3 & Hs23).
    exists d3. eauto using frame_step_trans.
Qed.

(** Assigning a sanitised column is a [frame_step]. *)
Lemma setitem_frame_step (self : DatabaseSchema) d col f s :
  resolve self col = Ok (Some f) → col ∈ columns d →
  frame_step self d (dict_set d col s).
Proof.
  intros Hres Hin. split.
  - by apply keys_dict_set_present.
  - intros i k v Hi Hk. apply dict_set_lookup_ne; [|done].
    intros ->. congruence.
Qed.

Lemma transform_column_step (self : DatabaseSchema) l col σ :
  store_step self l σ (snd (transform_column self l col σ)).
Proof.
  unfold transform_column. rewrite stateful_bind_eq. unfold lift at 1.
  destruct (resolve self col) as [[f|]|e] eqn:Hres;
    [|apply store_step_refl..].
  rewrite stateful_bind_eq. unfold apply_column.
  rewrite stateful_bind_eq. unfold read at 1.
  destruct (σ !! l) as [d|] eqn:Hd; [|apply store_step_refl].
  rewrite stateful_bind_eq. unfold lift at 1.
  destruct (getitem d col) as [[s|sub]|e] eqn:Hget;
    [|apply store_step_refl..].
  unfold lift. destruct (apply f s) as [s'|e]; [|apply store_step_refl].
  unfold setitem. rewrite stateful_bind_eq, (read_eq l σ d Hd).
  unfold write. simpl. split.
  - intros l' Hl'. by rewrite lookup_insert_ne.
  - intros d0 Hd0. assert (d0 = d) as -> by congruence.
    exists (dict_set d col s'). rewrite lookup_insert_eq. split; [done|].
    eapply setitem_frame_step; [done|]. by eapply getitem_Ok_label.
Qed.

Lemma transform_columns_step (self : DatabaseSchema) l cols σ :
  store_step self l σ (snd (transform_columns self l cols σ)).
Proof.
  revert σ. induction cols as [|col cols IH]; intros σ.
  - apply store_step_refl.
  - cbn [transform_columns]. rewrite stateful_bind_eq.
    pose proof (transform_column_step self l col σ) as Hstep.
    destruct (transform_column self l col σ) as [[[]|e] σ1]; simpl in Hstep.
    + eapply store_step_trans; [exact Hstep | apply IH].
    + exact Hstep.
Qed.

(** A configuration tagged [number] resolves to no sanitiser. *)
Lemma resolve_number (self : DatabaseSchema) col c :
  dict_get (configs self) col = Some (Some c) → type c = Some "number" →
  resolve self col = Ok None.
Proof.
  intros Hcol Hty. unfold resolve, __getitem__. rewrite Hcol. simpl.
  by rewrite Hty.
Qed.

(** C9.  [transform] leaves every frame of the store as it was, the frame
    it is given among them, whether it returns or raises.  When it
    returns, the result is a new object, distinct from the input, with the
    labels of the input, in which every column whose configuration is
    tagged [number] is the column of the input. *)
Theorem C9_transform_copies (self : DatabaseSchema) (df : loc)
    (d : DataFrame) (σ σ' : store) (r : result loc) :
  σ !! df = Some d →
  transform self df σ = (r, σ') →
  (∀ l, is_Some (σ !! l) → σ' !! l = σ !! l)
  ∧ ∀ out, r = Ok out →
      σ !! out = None ∧ out ≠ df ∧
      ∃ d', σ' !! out = Some d' ∧ columns d' = columns d ∧
            ∀ (i : nat) col s c,
              d !! i = Some (col, s) →
              dict_get (configs self) col = Some (Some c) →
              type c = Some "number" →
              d' !! i = Some (col, s).
Proof.
  intros Hdf. unfold transform, copy. rewrite !stateful_bind_eq.
  rewrite (read_eq df σ d Hdf). unfold alloc at 1.
  rewrite stateful_bind_eq.
  set (l := fresh (dom σ)).
  assert (σ !! l = None) as Hfresh
    by (apply not_elem_of_dom, is_fresh).
  rewrite (read_eq l _ d) by apply lookup_insert_eq.
  rewrite stateful_bind_eq.
  pose proof (transform_columns_step self l (columns d) (<[l := d]> σ))
    as [Hothers Hl].
  destruct (Hl d (lookup_insert_eq _ _ _)) as (d' & Hd' & Hcols & Hkeep).
  destruct (transform_columns self l (columns d) (<[l := d]> σ))
    as [[[]|e] σ1]; simpl in *; intros [= <- <-].
  - split.
    + intros l0 [d0 Hl0]. rewrite Hothers by congruence.
      rewrite lookup_insert_ne by congruence. done.
    + intros out [= <-]. split; [done|]. split; [congruence|].
      exists d'. split; [done|]. split; [done|].
      intros i col s c Hi Hcol Hty. apply Hkeep; [done|].
      by eapply resolve_number.
  - split; [|done].
    intros l0 [d0 Hl0]. rewrite Hothers by congruence.
    rewrite lookup_insert_ne by congruence. done.
Qed.

End TransformProperties.

Lemma C7_rollup_column_raises_witness :
  let x := {| relation_property_name := "Tasks";
              rollup_property_name := "Hours"; function := "sum" |} in
  let c := bare RollupConfig (OwnRollUp x) in
  let self := {| configs := [("total", Some c)] |} in
  let d := [("total", {| dtype := int64; values := [Scalar (SInt 7)] |})] in
  (resolve (U := reference_utils) self "total" = Raise (KeyError PNone)
   ∨ resolve (U := reference_utils) self "total"
     = Raise (KeyError (PStr "roll_up")))
  ∧ ∃ e, fst (transform (U := reference_utils) self 0 {[ 0 := d ]}) = Raise e.
Proof.
  intros x c self d.
  apply (C7_rollup_column_raises (U := reference_utils) self "total"
           [("roll_up", Instance_ (IRollUpProperty x))] c 0 d {[ 0 := d ]}).
  - reflexivity.
  - reflexivity.
  - vm_compute. reflexivity.
  - left.
Defined.

Lemma C9_transform_copies_witness :
  let self :=
    {| configs :=
         [ ("name", Some {| cls := TitleConfig; id := None;
                            type := Some "title"; own := OwnDict [] |});
           ("age", Some {| cls := NumberConfig; id := None;
                           type := Some "number";
                           own := OwnNumber {| format := "number" |} |}) ] |} in
  let d :=
    [ ("name", {| dtype := object_;
                  values := [Scalar (SStr "ann"); Scalar SNone] |});
      ("age", {| dtype := int64;
                 values := [Scalar (SInt 31); Scalar (SInt 27)] |}) ] in
  let σ : store := {[ 0 := d ]} in
  let σ' : store := <[ 1 := d ]> σ in
  (∀ l, is_Some (σ !! l) → σ' !! l = σ !! l)
  ∧ ∀ out, Ok 1 = Ok out →
      σ !! out = None ∧ out ≠ 0 ∧
      ∃ d', σ' !! out = Some d' ∧ columns d' = columns d ∧
            ∀ (i : nat) col s c,
              d !! i = Some (col, s) →
              dict_get (configs self) col = Some (Some c) →
              type c = Some "number" →
              d' !! i = Some (col, s).
Proof.
  intros self d σ σ'.
  apply (C9_transform_copies (U := reference_utils) self 0 d σ σ' (Ok 1)).
  - vm_compute. reflexivity.
  - vm_compute. reflexivity.
Defined.

(** * Further properties of the module *)

(** ** The registry and the parser *)

(** X1.  The registry holds one entry for each of the nineteen declared
    variants, under pairwise distinct tags, and looking a tag up returns a
    variant exactly when the tag is the one derived from the name of that
    variant. *)
Theorem registry_round_trip :
  (∀ t C, dict_get CONFIGS_MAPPING t = Some C ↔ t = registry_tag C)
  ∧ NoDup (keys CONFIGS_MAPPING)
  ∧ List.length CONFIGS_MAPPING = List.length __subclasses__.
Proof.
  split; [|split].
  - intros t C. split; [apply registry_lookup_inv|].
    intros ->. apply registry_lookup.
  - refine (bool_decide_unpack _ _). vm_compute. exact I.
  - reflexivity.
Qed.

(** X2.  When a constructor is given [type] as a string, the construction
    succeeds only if the string is the name of the field that the variant
    declares, and the configuration then carries it; any other string is
    reported as a failed assertion on the field [type], whatever the other
    arguments are. *)
Theorem explicit_type_must_name_the_field
    (C : variant) (kwargs : dict argument) (t : string) :
  dict_get kwargs "type" = Some (Raw (PStr t)) →
  (∀ c, instantiate C kwargs = Ok c →
        t = fst (own_field C) ∧ type c = Some t)
  ∧ (t ≠ fst (own_field C) →
     ∃ errs, instantiate C kwargs = Raise (ValidationError errs) ∧
             ("type", AssertionError_ (fst (own_field C) ++ " != " ++ t))
             ∈ errs).
Proof.
  intros Hty. split.
  - intros c Hc.
    destruct (decide (t = fst (own_field C))) as [->|Hne].
    + split; [done|]. by eapply instantiate_type_supplied.
    + destruct (instantiate_type_mismatch C kwargs t Hty Hne)
        as (errs & Herr & _). congruence.
  - by apply instantiate_type_mismatch.
Qed.

Lemma explicit_type_must_name_the_field_witness :
  (∀ c, instantiate NumberConfig
          [("type", Raw (PStr "number"));
           ("number", Raw (PDict [("format", PStr "percent")]))] = Ok c →
        "number" = fst (own_field NumberConfig) ∧ type c = Some "number")
  ∧ ("number" ≠ fst (own_field NumberConfig) →
     ∃ errs,
       instantiate NumberConfig
         [("type", Raw (PStr "number"));
          ("number", Raw (PDict [("format", PStr "percent")]))]
       = Raise (ValidationError errs) ∧
       ("type",
        AssertionError_ (fst (own_field NumberConfig) ++ " != " ++ "number"))
       ∈ errs).
Proof.
  apply (explicit_type_must_name_the_field NumberConfig
           [("type", Raw (PStr "number"));
            ("number", Raw (PDict [("format", PStr "percent")]))] "number").
  reflexivity.
Defined.

(** A construction fails with a validation error and nothing else. *)
Lemma instantiate_raises_validation (C : variant) kwargs e :
  instantiate C kwargs = Raise e → ∃ errs, e = ValidationError errs.
Proof.
  unfold instantiate. destruct (own_field C) as [field ann].
  destruct_checked; intros [= <-]; eauto.
Qed.

(** X3.  The parser raises [KeyError] in two cases and no other: the
    payload has no [type] entry, and the key is then ["type"]; or its
    [type] is a hashable value that is not the tag of a declared variant,
    and the key is then that value. *)
Theorem parse_KeyError_iff (data : dict pyval) (k : pyval) :
  parse_single_config data = Raise (KeyError k)
  ↔ (dict_get data "type" = None ∧ k = PStr "type")
    ∨ (dict_get data "type" = Some k ∧ hashable k = true ∧
       ∀ C, k ≠ PStr (registry_tag C)).
Proof.
  unfold parse_single_config.
  destruct (dict_get data "type") as [[| b | n | t | l | d |]|] eqn:Hty;
    try (split;
         [ intros [= <-]; right; repeat split; done
         | intros [[? _] | ([= <-] & _)]; done ]).
  - destruct (dict_get CONFIGS_MAPPING t) as [C|] eqn:HC.
    + split.
      * intros H. apply instantiate_raises_validation in H as [errs [=]].
      * intros [[? _] | ([= <-] & _ & Hno)]; [done|].
        apply registry_lookup_inv in HC. by destruct (Hno C); subst.
    + split; [|intros [[? _] | ([= <-] & _)]; done].
      intros [= <-]. right. split; [done|]. split; [done|].
      intros C [= ->]. by rewrite registry_lookup in HC.
  - split; [done|]. intros [[? _] | ([= <-] & ? & _)]; done.
  - split; [done|]. intros [[? _] | ([= <-] & ? & _)]; done.
  - split; [intros [= <-]; by left|].
    intros [[_ ->] | (? & _)]; done.
Qed.

Lemma parse_Ok_registered (data : dict pyval) (c : PropertyConfig) :
  parse_single_config data = Ok c →
  dict_get data "type" = Some (PStr (registry_tag (cls c))).
Proof.
  intros H. unfold parse_single_config in H.
  destruct (dict_get data "type") as [[| | |t| | |]|] eqn:Hty; try done.
  destruct (dict_get CONFIGS_MAPPING t) as [C|] eqn:HC; [|done].
  pose proof (instantiate_cls _ _ _ H) as <-.
  by rewrite (registry_lookup_inv _ _ HC).
Qed.

Lemma parse_Ok_type (data : dict pyval) (c : PropertyConfig) :
  parse_single_config data = Ok c → type c = Some (registry_tag (cls c)).
Proof.
  intros H. pose proof (parse_Ok_registered data c H) as Hty.
  pose proof (parse_never_rollup data c H) as Hroll.
  unfold parse_single_config in H. rewrite Hty, registry_lookup in H.
  assert (dict_get (map (fun kv => (fst kv, Raw (snd kv))) data) "type"
          = Some (Raw (PStr (registry_tag (cls c))))) as Hkw
    by (by rewrite (dict_get_map Raw), Hty).
  rewrite (instantiate_type_supplied _ _ _ _ Hkw H).
  by rewrite own_field_is_registry_tag.
Qed.

(** X4.  A configuration that the parser returns carries the tag of its
    payload: the payload's [type] is a string, it is the registry tag of
    the class of the configuration, and it is the [type] of the
    configuration.  The class is never the rollup one. *)
Theorem parsed_config_carries_its_tag (data : dict pyval) (c : PropertyConfig) :
  parse_single_config data = Ok c →
  ∃ t, dict_get data "type" = Some (PStr t) ∧
       dict_get CONFIGS_MAPPING t = Some (cls c) ∧
       t = registry_tag (cls c) ∧
       type c = Some t ∧
       cls c ≠ RollupConfig.
Proof.
  intros H. exists (registry_tag (cls c)).
  split; [by apply parse_Ok_registered|].
  split; [apply registry_lookup|].
  split; [done|].
  split; [by eapply parse_Ok_type|].
  by eapply parse_never_rollup.
Qed.

Lemma parsed_config_carries_its_tag_witness :
  ∃ t, dict_get [("type", PStr "url"); ("url", PDict [])] "type"
       = Some (PStr t) ∧
       dict_get CONFIGS_MAPPING t
       = Some (cls {| cls := URLConfig; id := None; type := Some "url";
                      own := OwnDict [] |}) ∧
       t = registry_tag (cls {| cls := URLConfig; id := None;
                               type := Some "url"; own := OwnDict [] |}) ∧
       type {| cls := URLConfig; id := None; type := Some "url";
               own := OwnDict [] |} = Some t ∧
       cls {| cls := URLConfig; id := None; type := Some "url";
              own := OwnDict [] |} ≠ RollupConfig.
Proof.
  apply (parsed_config_carries_its_tag [("type", PStr "url"); ("url", PDict [])]).
  reflexivity.
Defined.

(** X5.  The parser reads three entries of a payload: [type], [id] and the
    entry named after the field of the variant that [type] selects.  Two
    payloads that agree on them parse alike, whatever else they hold, the
    entries named after the fields of the other variants included. *)
Theorem parse_reads_three_entries (data data' : dict pyval) :
  dict_get data "type" = dict_get data' "type" →
  dict_get data "id" = dict_get data' "id" →
  (∀ t C, dict_get data "type" = Some (PStr t) →
          dict_get CONFIGS_MAPPING t = Some C →
          dict_get data (fst (own_field C))
          = dict_get data' (fst (own_field C))) →
  parse_single_config data = parse_single_config data'.
Proof.
  intros Hty Hid Hown. unfold parse_single_config. rewrite <- Hty.
  destruct (dict_get data "type") as [[| | |t| | |]|] eqn:Hd; try done.
  destruct (dict_get CONFIGS_MAPPING t) as [C|] eqn:HC; [|done].
  unfold instantiate. specialize (Hown t C eq_refl HC).
  destruct (own_field C) as [field ann]. simpl in Hown.
  rewrite !(dict_get_map Raw). by rewrite <- Hty, <- Hid, <- Hown, Hd.
Qed.

Lemma parse_reads_three_entries_witness :
  parse_single_config [("type", PStr "date"); ("date", PDict [])]
  = parse_single_config [("name", PStr "Due"); ("date", PDict []);
                         ("type", PStr "date"); ("description", PNone);
                         ("title", PDict [("text", PStr "Due")])].
Proof.
  apply parse_reads_three_entries; [reflexivity | reflexivity |].
  intros t C [= <-] HC. vm_compute in HC. injection HC as <-. reflexivity.
Defined.

(** ** from_raw *)

Lemma parse_items_Ok_valid items acc out :
  parse_items items acc = Ok out →
  Forall (fun kv => ∃ c, parse_single_config (snd kv) = Ok c) items.
Proof.
  revert acc. induction items as [|[key config] items IH]; intros acc H.
  - constructor.
  - simpl in H. destruct (parse_single_config config) as [c|e] eqn:E; [|done].
    constructor; [by exists c | by eapply IH].
Qed.

Lemma parsed_as_lookup raw outs (key : string) :
  Forall2 parsed_as raw outs →
  dict_get outs key
  = match dict_get raw key with
    | Some payload =>
        match parse_single_config payload with
        | Ok c => Some (Some c)
        | Raise _ => None
        end
    | None => None
    end.
Proof.
  induction 1 as [|[k p] [k' e] raw outs [Hk (c & Hc & He)] _ IH]; [done|].
  simpl in *. subst k' e.
  destruct (String.eqb k key); [by rewrite Hc | apply IH].
Qed.

Lemma from_raw_entries (raw : dict (dict pyval)) (schema : DatabaseSchema) :
  NoDup (keys raw) → from_raw raw = Ok schema →
  Forall2 parsed_as raw (configs schema).
Proof.
  intros Hnd H. unfold from_raw in H.
  destruct (parse_items raw []) as [out|e] eqn:E; [|done].
  simpl in H. injection H as <-.
  pose proof (parse_items_Ok_valid _ _ _ E) as Hvalid.
  destruct (parse_items_ok raw [] Hvalid Hnd) as (outs & Hout & Hpar).
  { intros k _. apply not_elem_of_nil. }
  rewrite E in Hout. by injection Hout as ->.
Qed.

Lemma from_raw_entry (raw : dict (dict pyval)) (schema : DatabaseSchema)
    (key : string) payload :
  NoDup (keys raw) → from_raw raw = Ok schema →
  dict_get raw key = Some payload →
  ∃ c, parse_single_config payload = Ok c ∧
       dict_get (configs schema) key = Some (Some c).
Proof.
  intros Hnd H Hkey. pose proof (from_raw_entries raw schema Hnd H) as Hpar.
  rewrite (parsed_as_lookup raw _ key Hpar), Hkey.
  clear H. revert Hkey. induction Hpar as [|[k p] e raw' outs [_ (c & Hc & _)] _ IH].
  - done.
  - simpl in *. destruct (String.eqb k key).
    + intros [= <-]. exists c. by rewrite Hc.
    + apply IH. unfold keys in Hnd. simpl in Hnd.
      by apply NoDup_cons in Hnd as [_ ?].
Qed.

(** X6.  Looking a column up in a schema built by [from_raw] returns the
    parse of the payload that the input binds to the column, and raises
    [KeyError] on a column that the input does not have. *)
Theorem from_raw_getitem (raw : dict (dict pyval))
    (schema : DatabaseSchema) (key : string) :
  NoDup (keys raw) →
  from_raw raw = Ok schema →
  __getitem__ schema key
  = match dict_get raw key with
    | Some payload => c ← parse_single_config payload; Ok (Some c)
    | None => Raise (KeyError (PStr key))
    end.
Proof.
  intros Hnd H. unfold __getitem__.
  destruct (dict_get raw key) as [payload|] eqn:Hkey.
  - destruct (from_raw_entry raw schema key payload Hnd H Hkey)
      as (c & Hc & ->).
    by rewrite Hc.
  - rewrite (parsed_as_lookup raw _ key (from_raw_entries raw schema Hnd H)).
    by rewrite Hkey.
Qed.

Lemma from_raw_getitem_witness :
  __getitem__
    {| configs := [("Done", Some {| cls := CheckboxConfig; id := None;
                                    type := Some "checkbox";
                                    own := OwnDict [] |})] |} "Due"
  = match dict_get [("Done", [("type", PStr "checkbox")])] "Due" with
    | Some payload => c ← parse_single_config payload; Ok (Some c)
    | None => Raise (KeyError (PStr "Due"))
    end.
Proof.
  apply (from_raw_getitem [("Done", [("type", PStr "checkbox")])]).
  - refine (bool_decide_unpack _ _). vm_compute. exact I.
  - reflexivity.
Defined.

Section Resolve.

Context {U : Utils}.

Lemma from_raw_table_entry (raw : dict (dict pyval))
    (schema : DatabaseSchema) (key : string) :
  NoDup (keys raw) → from_raw raw = Ok schema → key ∈ keys raw →
  ∃ c entry, dict_get (configs schema) key = Some (Some c) ∧
             type c = Some (registry_tag (cls c)) ∧
             dict_get CONFIGS_DF_TRANSFORMER (registry_tag (cls c))
             = Some entry.
Proof.
  intros Hnd H Hkey.
  destruct (dict_get raw key) as [payload|] eqn:Hget;
    [|by apply dict_get_None_keys in Hget].
  destruct (from_raw_entry raw schema key payload Hnd H Hget) as (c & Hc & Hs).
  destruct (table_covers_registry (cls c)) as [entry Hentry].
  exists c, entry. split; [done|]. split; [by eapply parse_Ok_type | done].
Qed.

(** X7.  Line 328 succeeds on every column of a schema built by
    [from_raw]: the tag of a parsed configuration is a registry tag other
    than that of the rollup variant, and the table has an entry for it. *)
Theorem from_raw_schema_resolves (raw : dict (dict pyval))
    (schema : DatabaseSchema) (key : string) :
  NoDup (keys raw) →
  from_raw raw = Ok schema →
  key ∈ keys raw →
  ∃ t, resolve schema key = Ok t.
Proof.
  intros Hnd H Hkey.
  destruct (from_raw_table_entry raw schema key Hnd H Hkey)
    as (c & entry & Hc & Hty & Hentry).
  exists entry. unfold resolve, __getitem__. rewrite Hc.
  cbn [mbind result_bind]. by rewrite Hty, Hentry.
Qed.

End Resolve.

Lemma from_raw_schema_resolves_witness :
  ∃ t, resolve (U := reference_utils)
         {| configs := [("Done", Some {| cls := CheckboxConfig; id := None;
                                         type := Some "checkbox";
                                         own := OwnDict [] |})] |} "Done"
       = Ok t.
Proof.
  apply (from_raw_schema_resolves (U := reference_utils)
           [("Done", [("type", PStr "checkbox")])]).
  - refine (bool_decide_unpack _ _). vm_compute. exact I.
  - reflexivity.
  - left.
Defined.

(** ** Inference *)

(** X8.  On a column that is not categorical inference raises in one case
    only: the dtype is [object], every value is list-like and some element
    has no hash, so that the [set] of line 251 raises [TypeError].  On
    every other such column it returns, and it returns [None] exactly
    when none of the tests of the function holds of the dtype. *)
Theorem inference_outside_categorical (column : Series) :
  is_categorical_dtype (dtype column) = false →
  if is_object_dtype (dtype column) && forallb is_list_like (values column)
     && negb (forallb hashable_scalar (elements column))
  then _infer_series_config column = Raise (TypeError "unhashable type")
  else ∃ r, _infer_series_config column = Ok r ∧
            (r = None ↔ is_object_dtype (dtype column) = false ∧
                        is_numeric_dtype (dtype column) = false ∧
                        is_bool_dtype (dtype column) = false ∧
                        is_datetime64_any_dtype (dtype column) = false).
Proof.
  destruct column as [d vs]. intros Hc.
  destruct (is_object_dtype d) eqn:Hd; cbn [dtype values andb].
  - assert (d = object_) as -> by (by destruct d).
    destruct (forallb is_list_like vs) eqn:Hll; cbn [andb].
    + rewrite (infer_list_like {| dtype := object_; values := vs |}
                 eq_refl Hll).
      rewrite (all_possible_values_list_like
                 {| dtype := object_; values := vs |} Hll).
      destruct (forallb hashable_scalar _) eqn:Hh; cbn [negb].
      * rewrite (py_set_Ok _ Hh). eexists. split; [reflexivity|].
        split; [done | intros (?&?&?&?); done].
      * by rewrite (py_set_raises _ Hh).
    + unfold _infer_series_config. cbn [dtype values is_object_dtype].
      rewrite Hll. eexists. split; [reflexivity|].
      split; [done | intros (?&?&?&?); done].
  - unfold _infer_series_config.
    destruct d; simpl in *; try done;
      (eexists; split; [reflexivity|]; split;
       [done | intros (?&?&?&?); done]).
Qed.

Lemma inference_outside_categorical_witness :
  _infer_series_config
    {| dtype := object_;
       values := [ListLike [SStr "a"; SUnhashable "{'k': 1}"]] |}
  = Raise (TypeError "unhashable type")
  ∧ ∃ r, _infer_series_config {| dtype := timedelta64;
                                 values := [Scalar (SInt 5)] |} = Ok r ∧
         (r = None ↔ is_object_dtype timedelta64 = false ∧
                     is_numeric_dtype timedelta64 = false ∧
                     is_bool_dtype timedelta64 = false ∧
                     is_datetime64_any_dtype timedelta64 = false).
Proof.
  split.
  - apply (inference_outside_categorical
             {| dtype := object_;
                values := [ListLike [SStr "a"; SUnhashable "{'k': 1}"]] |}).
    reflexivity.
  - apply (inference_outside_categorical
             {| dtype := timedelta64; values := [Scalar (SInt 5)] |}).
    reflexivity.
Defined.

Lemma infer_untagged (column : Series) e :
  _infer_series_config column = Ok e → untagged e.
Proof.
  destruct column as [d vs]. unfold _infer_series_config.
  destruct d; simpl; try (intros [= <-]; simpl; done).
  - destruct (forallb is_list_like vs) eqn:Hll; [|intros [= <-]; simpl; done].
    destruct (all_possible_values _) as [strs|]; simpl; [|done].
    unfold SelectOptions_from_value. rewrite options_from_values_strings.
    simpl. intros [= <-]. simpl. done.
  - destruct categories as [|cat cats]; [intros [= <-]; simpl; done|].
    destruct (forallb is_bool_scalar (cat :: cats));
      [intros [= <-]; simpl; done | done].
Qed.

(** X9.  Whatever inference builds is left untagged: the configuration of
    an inferred column has neither a [type] nor an [id]. *)
Theorem inferred_config_is_untagged (column : Series) (c : PropertyConfig) :
  _infer_series_config column = Ok (Some c) → type c = None ∧ id c = None.
Proof.
  intros H. pose proof (infer_untagged column (Some c) H) as [Hty Hid].
  by split.
Qed.

Lemma inferred_config_is_untagged_witness :
  type (bare DateConfig (OwnDict [])) = None
  ∧ id (bare DateConfig (OwnDict [])) = None.
Proof.
  apply (inferred_config_is_untagged
           {| dtype := datetime64; values := [Scalar (STime "2024-02-29")] |}).
  reflexivity.
Defined.

(** ** from_df *)

Lemma elem_of_keys_dict_set {V} (d : dict V) k v k' :
  k' ∈ keys (dict_set d k v) ↔ k' = k ∨ k' ∈ keys d.
Proof.
  unfold keys. induction d as [|[k0 v0] d IH]; simpl.
  - rewrite list_elem_of_singleton, elem_of_nil. tauto.
  - destruct (String.eqb_spec k0 k) as [->|Hne]; simpl.
    + rewrite !elem_of_cons. tauto.
    + rewrite !elem_of_cons, IH. tauto.
Qed.

Lemma Forall_dict_set {V} (P : string * V → Prop) (d : dict V) k v :
  Forall P d → P (k, v) → (∀ k' v', P (k', v') → P (k', v)) →
  Forall P (dict_set d k v).
Proof.
  intros Hd Hkv Hval. induction Hd as [|[k0 v0] d H0 Hd IH]; simpl.
  - by constructor.
  - destruct (String.eqb k0 k); constructor; eauto.
Qed.

Lemma infer_columns_keys (df : DataFrame) cols acc out :
  infer_columns df cols acc = Ok out →
  ∀ k, k ∈ cols ∨ k ∈ keys acc → k ∈ keys out.
Proof.
  revert acc. induction cols as [|col cols IH]; intros acc H k.
  - simpl in H. injection H as <-. intros [Hk|Hk]; [|done].
    by apply elem_of_nil in Hk.
  - cbn [infer_columns] in H.
    destruct (getitem df col) as [[s|sub]|e]; cbn [mbind result_bind] in H;
      [|done..].
    destruct (_infer_series_config s) as [config|e];
      cbn [mbind result_bind] in H; [|done].
    intros Hk. apply (IH _ H). rewrite elem_of_keys_dict_set.
    rewrite elem_of_cons in Hk. tauto.
Qed.

Lemma infer_columns_untagged (df : DataFrame) cols acc out :
  infer_columns df cols acc = Ok out →
  Forall (fun kv => untagged (snd kv)) acc →
  Forall (fun kv => untagged (snd kv)) out.
Proof.
  revert acc. induction cols as [|col cols IH]; intros acc H Hacc.
  - simpl in H. by injection H as <-.
  - cbn [infer_columns] in H.
    destruct (getitem df col) as [[s|sub]|e]; cbn [mbind result_bind] in H;
      [|done..].
    destruct (_infer_series_config s) as [config|e] eqn:E;
      cbn [mbind result_bind] in H; [|done].
    pose proof (infer_untagged s config E) as Hc.
    apply (IH _ H). apply Forall_dict_set; [done | done | intros; done].
Qed.

(** What [from_df] returns, in terms of the loop. *)
Lemma from_df_Ok (df : DataFrame) title_col schema :
  from_df df title_col = Ok schema →
  ∃ out t, infer_columns (infer_objects df) (columns df) [] = Ok out ∧
           configs schema = dict_set out t (Some title_config) ∧
           match title_col with
           | Some t' => t = t'
           | None => head (columns df) = Some t
           end.
Proof.
  unfold from_df. rewrite columns_infer_objects.
  destruct (infer_columns _ _ _) as [out|e]; [|done]. simpl.
  destruct title_col as [t|].
  - intros [= <-]. by exists out, t.
  - destruct (columns df) as [|first rest]; [done|].
    intros [= <-]. by exists out, first.
Qed.

(** X10.  Take a frame with distinct labels, no categorical column and no
    list-like cell that holds an object without a hash.  When the title
    column is a label of the frame, or is not given and the frame has a
    first column, [from_df] returns a schema with exactly the labels of
    the frame as keys, in their order; the title column is bound to the
    title variant in place, and every other column to what
    [_infer_series_config] returns for it after [infer_objects]. *)
Theorem from_df_title_in_place (df : DataFrame) (title_col : option string)
    (t : string) :
  distinct_labels df →
  Forall (fun c => is_categorical_dtype (dtype (snd c)) = false) df →
  Forall (fun c => forallb hashable_scalar (elements (snd c)) = true) df →
  match title_col with
  | Some t' => t' = t ∧ t ∈ columns df
  | None => head (columns df) = Some t
  end →
  ∃ schema inferred,
    from_df df title_col = Ok schema ∧
    Forall2 inferred_as (infer_objects df) inferred ∧
    keys (configs schema) = columns df ∧
    dict_get (configs schema) t = Some (Some title_config) ∧
    ∀ col, col ≠ t → dict_get (configs schema) col = dict_get inferred col.
Proof.
  intros Hdf Hcat Hhash Ht.
  destruct (infer_objects_noncategorical df Hcat Hhash) as [outs Hout].
  pose proof (inferred_as_keys _ _ Hout) as Hkeys.
  rewrite columns_infer_objects in Hkeys.
  assert (t ∈ columns df ∧
          from_df df title_col
          = Ok {| configs := dict_set outs t (Some title_config) |})
    as [Hin Hfrom].
  { rewrite (from_df_inferred df outs title_col Hdf Hout).
    destruct title_col as [t'|].
    - destruct Ht as [-> Hin]. done.
    - destruct (columns df) as [|first rest]; [done|].
      injection Ht as ->. split; [left | done]. }
  exists {| configs := dict_set outs t (Some title_config) |}, outs.
  split; [done|]. split; [done|]. simpl. split; [|split].
  - rewrite keys_dict_set_present; [done | by rewrite Hkeys].
  - apply dict_get_set_eq.
  - intros col Hne. by apply dict_get_set_ne.
Qed.

Lemma from_df_title_in_place_witness :
  ∃ schema inferred,
    from_df [ ("id", {| dtype := int64; values := [Scalar (SInt 1)] |});
              ("task", {| dtype := object_;
                          values := [Scalar (SStr "write")] |});
              ("tags", {| dtype := object_;
                          values := [ListLike [SStr "home"; SStr "work"]] |}) ]
            (Some "task") = Ok schema ∧
    Forall2 inferred_as
      (infer_objects
         [ ("id", {| dtype := int64; values := [Scalar (SInt 1)] |});
           ("task", {| dtype := object_;
                       values := [Scalar (SStr "write")] |});
           ("tags", {| dtype := object_;
                       values := [ListLike [SStr "home"; SStr "work"]] |}) ])
      inferred ∧
    keys (configs schema) = ["id"; "task"; "tags"] ∧
    dict_get (configs schema) "task" = Some (Some title_config) ∧
    ∀ col, col ≠ "task" →
           dict_get (configs schema) col = dict_get inferred col.
Proof.
  apply (from_df_title_in_place
           [ ("id", {| dtype := int64; values := [Scalar (SInt 1)] |});
             ("task", {| dtype := object_;
                         values := [Scalar (SStr "write")] |});
             ("tags", {| dtype := object_;
                         values := [ListLike [SStr "home"; SStr "work"]] |}) ]
           (Some "task") "task").
  - refine (bool_decide_unpack _ _). vm_compute. exact I.
  - repeat constructor.
  - repeat constructor.
  - split; [reflexivity|]. right. left.
Defined.

(** ** is_df_compatible *)

Lemma from_df_covers_columns (df : DataFrame) title_col schema :
  from_df df title_col = Ok schema →
  ∀ col, col ∈ columns df → col ∈ keys (configs schema).
Proof.
  intros H col Hcol.
  destruct (from_df_Ok df title_col schema H) as (out & t & Hloop & -> & _).
  rewrite elem_of_keys_dict_set. right.
  apply (infer_columns_keys _ _ _ _ Hloop). by left.
Qed.

(** X11.  A frame that carries no schema and has no column labelled
    [schema] is judged by its labels alone: [is_df_compatible] returns,
    and returns [True] exactly when every label of the frame is a key of
    the schema.  The dtypes and the values are not looked at. *)
Theorem compatible_iff_labels_are_keys (self : DatabaseSchema) (df : DataFrame) :
  "schema" ∉ columns df →
  ∃ b, is_df_compatible self None df = inr b ∧
       (b = true ↔ ∀ col, col ∈ columns df → col ∈ keys (configs self)).
Proof.
  intros Hno. unfold is_df_compatible.
  rewrite bool_decide_eq_false_2 by done.
  eexists. split; [reflexivity|].
  rewrite forallb_forall. split.
  - intros H col Hcol. apply list_elem_of_In in Hcol.
    by eapply bool_decide_eq_true_1, H.
  - intros H col Hcol. apply bool_decide_eq_true_2, H.
    by apply list_elem_of_In.
Qed.

Lemma compatible_iff_labels_are_keys_witness :
  ∃ b, is_df_compatible
         {| configs := [("a", Some title_config)] |} None
         [ ("a", {| dtype := object_; values := [] |});
           ("b", {| dtype := int64; values := [] |}) ] = inr b ∧
       (b = true ↔
        ∀ col, col ∈ columns [ ("a", {| dtype := object_; values := [] |});
                               ("b", {| dtype := int64; values := [] |}) ] →
               col ∈ keys (configs {| configs := [("a", Some title_config)] |})).
Proof.
  apply compatible_iff_labels_are_keys.
  refine (bool_decide_unpack _ _). vm_compute. exact I.
Defined.

(** X12.  Take a schema that [from_df] inferred from a frame, whatever
    title column was named, and judge that very frame by it.  When no
    column of the frame is labelled [schema] the frame is compatible.
    When one is, [hasattr(df, "schema")] holds, the comparison of line 314
    gives a pandas object, and [is_df_compatible] raises [ValueError]
    instead of returning. *)
Theorem compatibility_of_inferred_schema (df : DataFrame)
    (title_col : option string) (schema : DatabaseSchema) :
  from_df df title_col = Ok schema →
  is_df_compatible schema None df
  = if bool_decide ("schema" ∈ columns df)
    then inl ValueError_truth_value_is_ambiguous
    else inr true.
Proof.
  intros H. unfold is_df_compatible.
  destruct (bool_decide ("schema" ∈ columns df)); [done|]. f_equal.
  apply forallb_forall. intros col Hcol. apply bool_decide_eq_true_2.
  apply (from_df_covers_columns df title_col schema H).
  by apply list_elem_of_In.
Qed.

Lemma compatibility_of_inferred_schema_witness :
  is_df_compatible
    {| configs := [("when", Some (bare DateConfig (OwnDict [])));
                   ("Name", Some title_config)] |}
    None
    [("when", {| dtype := datetime64; values := [] |})] = inr true
  ∧ is_df_compatible
      {| configs := [("schema", Some title_config)] |}
      None
      [("schema", {| dtype := int64; values := [Scalar (SInt 3)] |})]
    = inl ValueError_truth_value_is_ambiguous.
Proof.
  split.
  - apply (compatibility_of_inferred_schema
             [("when", {| dtype := datetime64; values := [] |})]
             (Some "Name")).
    reflexivity.
  - apply (compatibility_of_inferred_schema
             [("schema", {| dtype := int64; values := [Scalar (SInt 3)] |})]
             None).
    reflexivity.
Defined.




(** ** transform, further *)

Lemma dict_set_middle {V} (pre post : dict V) k v v' :
  k ∉ keys pre →
  dict_set (pre ++ (k, v) :: post) k v' = pre ++ (k, v') :: post.
Proof.
  unfold keys. induction pre as [|[k0 v0] pre IH]; simpl.
  - intros _. by rewrite String.eqb_refl.
  - rewrite not_elem_of_cons. intros [Hne Hnin].
    destruct (String.eqb_spec k0 k) as [->|_]; [done|]. by rewrite IH.
Qed.

Section TransformFurther.

Context {U : Utils}.

(** [transform], in terms of its loop. *)
Lemma transform_loop (self : DatabaseSchema) (df : loc) (d : DataFrame)
    (σ : store) :
  σ !! df = Some d →
  transform self df σ
  = match transform_columns self (fresh (dom σ)) (columns d)
            (<[fresh (dom σ) := d]> σ) with
    | (Ok _, σ') => (Ok (fresh (dom σ)), σ')
    | (Raise e, σ') => (Raise e, σ')
    end.
Proof.
  intros Hdf. unfold transform, copy. rewrite !stateful_bind_eq.
  rewrite (read_eq df σ d Hdf). unfold alloc at 1.
  rewrite stateful_bind_eq.
  rewrite (read_eq _ _ d) by apply lookup_insert_eq.
  rewrite stateful_bind_eq.
  by destruct (transform_columns _ _ _ _) as [[[]|e] σ'].
Qed.

Lemma transform_raises_if (self : DatabaseSchema) (df : loc) (d : DataFrame)
    (σ : store) (col : string) e :
  σ !! df = Some d → col ∈ columns d → resolve self col = Raise e →
  ∃ e', fst (transform self df σ) = Raise e'.
Proof.
  intros Hdf Hin He. rewrite (transform_loop self df d σ Hdf).
  destruct (transform_columns_raises self (fresh (dom σ)) (columns d) col e
              (<[fresh (dom σ) := d]> σ) He Hin) as [e' He'].
  destruct (transform_columns _ _ _ _) as [[[]|e1] σ1]; simpl in *;
    [discriminate | eauto].
Qed.

(** X14.  [transform] raises on a frame with a column that the schema
    cannot serve: a label that is not a key of the schema, a key bound to
    [None], or a configuration whose tag, [None] included, has no entry in
    the table. *)
Theorem transform_raises_on_unserved_column (self : DatabaseSchema)
    (df : loc) (d : DataFrame) (σ : store) (col : string) :
  σ !! df = Some d → col ∈ columns d →
  match dict_get (configs self) col with
  | None | Some None => True
  | Some (Some c) =>
      match type c with
      | None => True
      | Some t => dict_get CONFIGS_DF_TRANSFORMER t = None
      end
  end →
  ∃ e, fst (transform self df σ) = Raise e.
Proof.
  intros Hdf Hin Hbad.
  assert (∃ e, resolve self col = Raise e) as [e He].
  { unfold resolve, __getitem__.
    destruct (dict_get (configs self) col) as [[c|]|];
      cbn [mbind result_bind]; eauto.
    destruct (type c) as [t|]; [|eauto]. rewrite Hbad. eauto. }
  by eapply transform_raises_if.
Qed.

Lemma resolve_untagged_raises (self : DatabaseSchema) (col : string) :
  Forall (fun kv => untagged (snd kv)) (configs self) →
  ∃ e, resolve self col = Raise e.
Proof.
  intros Hall. unfold resolve, __getitem__.
  destruct (dict_get (configs self) col) as [[c|]|] eqn:Hget;
    cbn [mbind result_bind]; eauto.
  apply dict_get_Some_In in Hget. rewrite Forall_forall in Hall.
  destruct (Hall _ Hget) as [-> _]. eauto.
Qed.

(** X15.  A schema that [from_df] inferred cannot drive [transform]: on
    every frame with at least one column the call raises, the frame the
    schema was inferred from included, because no inferred configuration
    carries a tag. *)
Theorem transform_raises_with_inferred_schema (df0 : DataFrame)
    (title_col : option string) (schema : DatabaseSchema)
    (df : loc) (d : DataFrame) (σ : store) :
  from_df df0 title_col = Ok schema →
  σ !! df = Some d → d ≠ [] →
  ∃ e, fst (transform schema df σ) = Raise e.
Proof.
  intros Hfrom Hdf Hne.
  destruct d as [|[col s] d]; [done|].
  destruct (from_df_Ok _ _ _ Hfrom) as (out & t & Hloop & Hcfg & _).
  destruct (resolve_untagged_raises schema col) as [e He].
  { rewrite Hcfg. apply Forall_dict_set; [|done | intros; done].
    eapply infer_columns_untagged; [exact Hloop | constructor]. }
  eapply (transform_raises_if schema df _ σ col); [exact Hdf | left | exact He].
Qed.

(** The loop, when every remaining column is served. *)
Lemma transform_columns_returns (self : DatabaseSchema) (l : loc)
    (pre rest rest' : DataFrame) (σ : store) :
  σ !! l = Some (pre ++ rest) → distinct_labels (pre ++ rest) →
  Forall2 (sanitized_as self) rest rest' →
  transform_columns self l (columns rest) σ
  = (Ok tt, <[l := pre ++ rest']> σ).
Proof.
  intros Hl Hnd Hall. revert pre σ Hl Hnd.
  induction Hall as [|[col s] [col' s'] rest rest' [Hcol (t & Ht & Hs)] _ IH];
    intros pre σ Hl Hnd.
  - simpl. rewrite app_nil_r in *. by rewrite insert_id.
  - simpl in Hcol, Ht, Hs. subst col'.
    cbn [columns map fst transform_columns]. rewrite stateful_bind_eq.
    assert (col ∉ keys pre) as Hfresh.
    { unfold distinct_labels, columns in Hnd. rewrite map_app in Hnd.
      apply NoDup_app in Hnd as (_ & Hdisj & _).
      intros Hin. apply (Hdisj col Hin). left. }
    unfold transform_column. rewrite stateful_bind_eq. unfold lift at 1.
    rewrite Ht. destruct t as [f|].
    + rewrite stateful_bind_eq. unfold apply_column.
      rewrite stateful_bind_eq, (read_eq l σ _ Hl).
      rewrite stateful_bind_eq. unfold lift at 1.
      rewrite (getitem_unique _ col s Hnd)
        by (rewrite elem_of_app; right; left).
      unfold lift. rewrite Hs.
      unfold setitem. rewrite stateful_bind_eq, (read_eq l σ _ Hl).
      unfold write. rewrite (dict_set_middle pre rest col s s' Hfresh).
      change (map fst rest) with (columns rest).
      rewrite (IH (pre ++ [(col, s')]) (<[l := pre ++ (col, s') :: rest]> σ)).
      * by rewrite insert_insert_eq, <- app_assoc.
      * rewrite lookup_insert_eq, <- app_assoc. done.
      * unfold distinct_labels, columns in *.
        rewrite <- app_assoc. simpl.
        by rewrite !map_app in *.
    + simpl in Hs. subst s'. unfold mret, stateful_ret.
      change (map fst rest) with (columns rest).
      rewrite (IH (pre ++ [(col, s)]) σ).
      * by rewrite <- app_assoc.
      * by rewrite <- app_assoc.
      * by rewrite <- app_assoc.
Qed.

(** X16.  On a frame with distinct labels every column of which the schema
    serves, [transform] returns a new frame that holds, under each label
    and in the order of the input, the column of the input when its tag
    resolves to no sanitiser and else the sanitiser applied to it; nothing
    else in the store changes. *)
Theorem transform_returns_sanitized_copy (self : DatabaseSchema)
    (df : loc) (d d' : DataFrame) (σ : store) :
  σ !! df = Some d → distinct_labels d →
  Forall2 (sanitized_as self) d d' →
  transform self df σ = (Ok (fresh (dom σ)), <[fresh (dom σ) := d']> σ).
Proof.
  intros Hdf Hnd Hall. rewrite (transform_loop self df d σ Hdf).
  rewrite (transform_columns_returns self _ [] d d'); try done.
  - simpl. by rewrite insert_insert_eq.
  - apply lookup_insert_eq.
Qed.

End TransformFurther.

Lemma transform_raises_on_unserved_column_witness :
  ∃ e, fst (transform (U := reference_utils)
              {| configs := [("name", Some {| cls := TitleConfig; id := None;
                                              type := Some "title";
                                              own := OwnDict [] |})] |}
              0
              {[ 0 := [ ("name", {| dtype := object_;
                                    values := [Scalar (SStr "ann")] |});
                        ("age", {| dtype := int64;
                                   values := [Scalar (SInt 31)] |}) ] ]})
       = Raise e.
Proof.
  apply (transform_raises_on_unserved_column (U := reference_utils) _ 0
           [ ("name", {| dtype := object_; values := [Scalar (SStr "ann")] |});
             ("age", {| dtype := int64; values := [Scalar (SInt 31)] |}) ]
           _ "age").
  - vm_compute. reflexivity.
  - right. left.
  - exact I.
Defined.

Lemma transform_raises_with_inferred_schema_witness :
  ∃ e, fst (transform (U := reference_utils)
              {| configs := [("age", Some title_config)] |}
              0
              {[ 0 := [("age", {| dtype := int64;
                                  values := [Scalar (SInt 31)] |})] ]})
       = Raise e.
Proof.
  apply (transform_raises_with_inferred_schema (U := reference_utils)
           [("age", {| dtype := int64; values := [Scalar (SInt 31)] |})]
           None _ 0
           [("age", {| dtype := int64; values := [Scalar (SInt 31)] |})]).
  - reflexivity.
  - vm_compute. reflexivity.
  - discriminate.
Defined.

Lemma transform_returns_sanitized_copy_witness :
  transform (U := reference_utils)
    {| configs :=
         [ ("code", Some {| cls := RichTextConfig; id := None;
                            type := Some "rich_text"; own := OwnDict [] |});
           ("age", Some {| cls := NumberConfig; id := None;
                           type := Some "number";
                           own := OwnNumber {| format := "number" |} |}) ] |}
    0
    {[ 0 := [ ("code", {| dtype := int64; values := [Scalar (SInt 7)] |});
              ("age", {| dtype := int64; values := [Scalar (SInt 31)] |}) ] ]}
  = (Ok (fresh (dom ({[ 0 := [ ("code", {| dtype := int64;
                                           values := [Scalar (SInt 7)] |});
                               ("age", {| dtype := int64;
                                          values := [Scalar (SInt 31)] |}) ] ]}
                       : store))),
     <[ fresh (dom ({[ 0 := [ ("code", {| dtype := int64;
                                          values := [Scalar (SInt 7)] |});
                              ("age", {| dtype := int64;
                                         values := [Scalar (SInt 31)] |}) ] ]}
                      : store))
        := [ ("code", {| dtype := object_; values := [Scalar (SStr "7")] |});
             ("age", {| dtype := int64; values := [Scalar (SInt 31)] |}) ] ]>
       {[ 0 := [ ("code", {| dtype := int64; values := [Scalar (SInt 7)] |});
                 ("age", {| dtype := int64;
                            values := [Scalar (SInt 31)] |}) ] ]}).
Proof.
  apply (transform_returns_sanitized_copy (U := reference_utils) _ 0
           [ ("code", {| dtype := int64; values := [Scalar (SInt 7)] |});
             ("age", {| dtype := int64; values := [Scalar (SInt 31)] |}) ]).
  - vm_compute. reflexivity.
  - refine (bool_decide_unpack _ _). vm_compute. exact I.
  - repeat constructor; simpl.
    + exists (Some reference_str). split; reflexivity.
    + exists None. split; reflexivity.
Defined.

(** ** The sanitiser of multi_select *)


(** ** from_df, further *)

Lemma getitem_repeated (df : DataFrame) :
  ¬ distinct_labels df →
  ∃ col sub, col ∈ columns df ∧ getitem df col = Ok (SubFrame sub).
Proof.
  unfold distinct_labels, columns, getitem.
  induction df as [|[k v] df IH]; cbn [map fst].
  - intros H. destruct H. constructor.
  - intros Hnd.
    destruct (decide (k ∈ map fst df)) as [Hin|Hnin].
    + exists k. rewrite filter_cons. cbn [fst]. rewrite String.eqb_refl.
      rewrite decide_True by done.
      apply elem_of_map in Hin as ([k' v'] & Hk & Hin). simpl in Hk. subst k'.
      destruct (filter _ df) as [|c l] eqn:E.
      * exfalso.
        assert ((k, v') ∈ filter (fun c => String.eqb (fst c) k = true)
                              (df : list (string * Series))) as Hf.
        { apply list_elem_of_filter. split; [apply String.eqb_refl | done]. }
        rewrite E in Hf. by apply elem_of_nil in Hf.
      * eexists. split; [left | reflexivity].
    + destruct IH as (col & sub & Hcol & Hsub).
      { intros Hdf. apply Hnd. by constructor. }
      exists col. rewrite filter_cons. cbn [fst].
      destruct (filter _ df) as [|c [|c' l]] eqn:E; try done.
      destruct (decide (String.eqb k col = true));
        eexists; (split; [by right | reflexivity]).
Qed.

Lemma infer_columns_raises (df : DataFrame) cols acc col sub :
  col ∈ cols → getitem df col = Ok (SubFrame sub) →
  ∃ e, infer_columns df cols acc = Raise e.
Proof.
  intros Hin Hsub. revert acc.
  induction cols as [|c cols IH]; intros acc.
  - by apply elem_of_nil in Hin.
  - cbn [infer_columns].
    destruct (decide (c = col)) as [->|Hne].
    + rewrite Hsub. cbn [mbind result_bind]. eauto.
    + destruct (getitem df c) as [[s|sub']|e]; cbn [mbind result_bind]; eauto.
      destruct (_infer_series_config s); cbn [mbind result_bind]; eauto.
      apply IH. apply elem_of_cons in Hin as [?|?]; [congruence | done].
Qed.

(** X18.  [from_df] raises on every frame in which a label occurs twice,
    with or without a title column: the lookup of such a label is a frame,
    which inference cannot take. *)
Theorem from_df_raises_on_repeated_label (df : DataFrame)
    (title_col : option string) :
  ¬ distinct_labels df → ∃ e, from_df df title_col = Raise e.
Proof.
  intros Hnd.
  destruct (getitem_repeated (infer_objects df)) as (col & sub & Hcol & Hsub).
  { unfold distinct_labels. by rewrite columns_infer_objects. }
  unfold from_df.
  destruct (infer_columns_raises (infer_objects df)
              (columns (infer_objects df)) [] col sub Hcol Hsub) as [e ->].
  by exists e.
Qed.

Lemma from_df_raises_on_repeated_label_witness :
  ∃ e, from_df [ ("x", {| dtype := object_; values := [Scalar (SStr "a")] |});
                 ("y", {| dtype := int64; values := [Scalar (SInt 1)] |});
                 ("x", {| dtype := bool_; values := [Scalar (SBool true)] |}) ]
               (Some "x") = Raise e.
Proof.
  apply from_df_raises_on_repeated_label.
  refine (bool_decide_unpack _ _). vm_compute. exact I.
Defined.

Lemma instantiate_not_IndexError (C : variant) kwargs msg :
  instantiate C kwargs ≠ Raise (IndexError msg).
Proof.
  intros H. by apply instantiate_raises_validation in H as [errs [=]].
Qed.

Lemma infer_not_IndexError (column : Series) msg :
  _infer_series_config column ≠ Raise (IndexError msg).
Proof.
  destruct column as [d vs]. unfold _infer_series_config.
  destruct d; simpl; try done.
  - destruct (forallb is_list_like vs) eqn:Hll; [|done].
    rewrite (all_possible_values_list_like
               {| dtype := object_; values := vs |} Hll).
    unfold py_set. destruct (forallb hashable_scalar _); simpl; [|done].
    unfold SelectOptions_from_value. rewrite options_from_values_strings.
    done.
  - destruct categories as [|cat cats]; [done|].
    destruct (forallb is_bool_scalar (cat :: cats)); done.
Qed.

Lemma infer_columns_not_IndexError (df : DataFrame) cols acc msg :
  (∀ c, c ∈ cols → c ∈ columns df) →
  infer_columns df cols acc ≠ Raise (IndexError msg).
Proof.
  revert acc. induction cols as [|c cols IH]; intros acc Hsub; [done|].
  cbn [infer_columns].
  destruct (getitem df c) as [[s|sub]|e] eqn:Hget; cbn [mbind result_bind].
  - pose proof (infer_not_IndexError s msg) as Hs.
    destruct (_infer_series_config s); cbn [mbind result_bind]; [|congruence].
    apply IH. intros c' Hc'. apply Hsub. by right.
  - done.
  - unfold getitem in Hget.
    destruct (filter _ _) as [|? [|? ?]]; [|done..].
    injection Hget as <-. done.
Qed.

(** X19.  Without a title column, [from_df] raises [IndexError] on the
    frame that has no column, and on no other frame. *)
Theorem from_df_IndexError_iff (df : DataFrame) (msg : string) :
  from_df df None = Raise (IndexError msg)
  ↔ df = [] ∧ msg = "index 0 is out of bounds".
Proof.
  split.
  - destruct df as [|c df]; [by intros [= <-]|].
    unfold from_df. intros H. exfalso.
    pose proof (infer_columns_not_IndexError (infer_objects (c :: df))
                  (columns (infer_objects (c :: df))) [] msg
                  ltac:(done)) as Hno.
    destruct (infer_columns _ _ _) as [out|e]; [|simpl in H; congruence].
    simpl in H. done.
  - intros [-> ->]. reflexivity.
Qed.

(** ** from_raw and transform together *)

Lemma map_result_total {A B} (f : A → result B) (l : list A) :
  (∀ a, ∃ b, f a = Ok b) → ∃ l', map_result f l = Ok l'.
Proof.
  intros Hf. induction l as [|a l [l' IH]]; simpl; [eauto|].
  destruct (Hf a) as [b ->]. rewrite IH. simpl. eauto.
Qed.

Section Composition.

Context {U : Utils}.

Lemma resolve_Some_entry (self : DatabaseSchema) (col : string) f :
  resolve self col = Ok (Some f) →
  ∃ tag, dict_get CONFIGS_DF_TRANSFORMER tag = Some (Some f).
Proof.
  unfold resolve, __getitem__.
  destruct (dict_get (configs self) col) as [[c|]|];
    cbn [mbind result_bind]; try done.
  destruct (type c) as [t|]; [|done].
  destruct (dict_get CONFIGS_DF_TRANSFORMER t) as [entry|] eqn:E; [|done].
  intros [= ->]. eauto.
Qed.

(** X20.  A schema parsed by [from_raw] drives [transform] to the end on
    every frame with distinct labels all of which are keys of the parsed
    mapping, as long as the three imported sanitisers return on every
    cell: the call returns the sanitised copy and leaves the rest of the
    store alone. *)
Theorem transform_returns_with_parsed_schema (raw : dict (dict pyval))
    (schema : DatabaseSchema) (df : loc) (d : DataFrame) (σ : store) :
  NoDup (keys raw) → from_raw raw = Ok schema →
  σ !! df = Some d → distinct_labels d →
  (∀ col, col ∈ columns d → col ∈ keys raw) →
  (∀ v, ∃ v', SECURE_STR_TRANSFORM v = Ok v') →
  (∀ v, ∃ v', SECURE_BOOL_TRANSFORM v = Ok v') →
  (∀ v, ∃ v', SECURE_TIME_TRANSFORM v = Ok v') →
  ∃ d', transform schema df σ
        = (Ok (fresh (dom σ)), <[fresh (dom σ) := d']> σ) ∧
        Forall2 (sanitized_as schema) d d'.
Proof.
  intros Hnd Hraw Hdf Hlab Hkeys Hstr Hbool Htime.
  assert (∃ d', Forall2 (sanitized_as schema) d d') as [d' Hd'].
  { clear Hdf Hlab. induction d as [|[col s] d IH].
    - exists []. constructor.
    - destruct IH as [d' IH].
      { intros c Hc. apply Hkeys. by right. }
      destruct (from_raw_table_entry raw schema col Hnd Hraw)
        as (c & t & Hc & Hty & Hentry).
      { apply Hkeys. left. }
      assert (resolve schema col = Ok t) as Ht.
      { unfold resolve, __getitem__. rewrite Hc.
        cbn [mbind result_bind]. by rewrite Hty, Hentry. }
      destruct t as [f|].
      + assert (∀ v, ∃ v', f v = Ok v') as Hf.
        { destruct (resolve_Some_entry _ _ _ Ht) as [tag Htag].
          destruct (table_entry tag f Htag)
            as [[_ ->] | [_ [ -> | [ -> | -> ] ]]]; try done.
          intros [x|xs]; simpl; eauto. }
        destruct (map_result_total f (values s) Hf) as [vs Hvs].
        exists ((col, {| dtype := infer_dtype vs; values := vs |}) :: d').
        constructor; [|done]. split; [done|].
        exists (Some f). split; [done|]. simpl. unfold apply.
        by rewrite Hvs.
      + exists ((col, s) :: d'). constructor; [|done].
        split; [done|]. exists None. done. }
  exists d'. split; [|done]. rewrite (transform_loop schema df d σ Hdf).
  rewrite (transform_columns_returns schema _ [] d d'); try done.
  - simpl. by rewrite insert_insert_eq.
  - apply lookup_insert_eq.
Qed.

End Composition.

Lemma transform_returns_with_parsed_schema_witness :
  ∃ d', transform (U := reference_utils)
          {| configs := [("Done", Some {| cls := CheckboxConfig; id := None;
                                          type := Some "checkbox";
                                          own := OwnDict [] |})] |}
          0
          {[ 0 := [("Done", {| dtype := int64;
                               values := [Scalar (SInt 0)] |})] ]}
        = (Ok (fresh (dom ({[ 0 := [("Done",
                                     {| dtype := int64;
                                        values := [Scalar (SInt 0)] |})] ]}
                             : store))),
           <[ fresh (dom ({[ 0 := [("Done",
                                    {| dtype := int64;
                                       values := [Scalar (SInt 0)] |})] ]}
                            : store)) := d' ]>
             {[ 0 := [("Done", {| dtype := int64;
                                  values := [Scalar (SInt 0)] |})] ]}) ∧
        Forall2 (sanitized_as (U := reference_utils)
                   {| configs := [("Done",
                                   Some {| cls := CheckboxConfig; id := None;
                                           type := Some "checkbox";
                                           own := OwnDict [] |})] |})
                [("Done", {| dtype := int64; values := [Scalar (SInt 0)] |})]
                d'.
Proof.
  apply (transform_returns_with_parsed_schema (U := reference_utils)
           [("Done", [("type", PStr "checkbox")])]).
  - refine (bool_decide_unpack _ _). vm_compute. exact I.
  - reflexivity.
  - vm_compute. reflexivity.
  - refine (bool_decide_unpack _ _). vm_compute. exact I.
  - intros col Hcol. exact Hcol.
  - intros [[| | | | |]|]; eexists; reflexivity.
  - intros [[| | | | |]|]; eexists; reflexivity.
  - intros [[| | | | |]|]; eexists; reflexivity.
Defined.
